(** * C11 threads over POSIX threads and Win32 handles

    A shallow embedding of [threads.h] / [threads.c]: the portable
    [thrd_*] and [mtx_*] wrappers, once for the [__unix__] branch and once
    for the [_WIN32] branch of the source.

    The wrappers are thin: every one of them makes a native call, looks at
    the native status, stores a diagnostic in [errno] and returns a result
    code.  The native primitives are not part of the library; they are an
    interface ([Posix.Native], [Win32.Native]) that the wrappers are
    parametric in.  Two executable reference kernels implement the
    interfaces after the documented behaviour of the primitives, so that
    the wrappers can be run on concrete scenarios.

    [thrd_exit] hands control to the native exit primitive and has no
    return; it is not part of the embedding. *)

From stdpp Require Import base gmap.
From Stdlib Require Import ZArith Lia.

Local Open Scope Z_scope.

(** ** Result codes and mutex kinds (the two anonymous enums of threads.h) *)

Definition thrd_success : Z := 0.
Definition thrd_nomem : Z := 1.
Definition thrd_timedout : Z := 2.
Definition thrd_busy : Z := 3.
Definition thrd_error : Z := 4.

Definition mtx_plain : Z := 0.
Definition mtx_recursive : Z := 1.
Definition mtx_timed : Z := 2.

(** The null pointer and the null handle. *)
Definition NULL : Z := 0.

(** ** C integer conversions

    [int] is a 32-bit two's complement integer, [DWORD] a 32-bit unsigned
    one.  Storing a [DWORD] into an [int] object wraps around. *)

Definition to_int (z : Z) : Z := (z + 2 ^ 31) mod 2 ^ 32 - 2 ^ 31.
Definition to_DWORD (z : Z) : Z := z mod 2 ^ 32.

(** C's [a != b] on integers. *)
Definition Zneqb (a b : Z) : bool := negb (a =? b).
Infix "!=?" := Zneqb (at level 70, no associativity) : Z_scope.

(** ** Program state

    What a wrapper can touch: the diagnostic slot [errno], the caller's
    memory (cells addressed by pointers, for the [__OUT__] parameters), and
    the state of the operating system [world]. *)

Record state (W : Type) : Type := State {
  errno : Z;
  heap : gmap Z Z;
  world : W
}.
Arguments State {W} _ _ _.
Arguments errno {W} _.
Arguments heap {W} _.
Arguments world {W} _.

(** A call either returns a value in a new state, or the calling thread
    stays suspended inside a native wait and the call does not return. *)
Inductive outcome (W A : Type) : Type :=
| Returns (a : A) (s : state W)
| Blocks.
Arguments Returns {W A} _ _.
Arguments Blocks {W A}.

Definition M (W A : Type) : Type := state W -> outcome W A.

Section Monad.
Context {W : Type}.

Definition ret {A} (a : A) : M W A := fun s => Returns a s.

Definition bind {A B} (c : M W A) (k : A -> M W B) : M W B :=
  fun s => match c s with
           | Returns a s' => k a s'
           | Blocks => Blocks
           end.

(** A native call that always returns. *)
Definition native {A} (f : W -> A * W) : M W A :=
  fun s => let '(a, w) := f (world s) in
           Returns a (State (errno s) (heap s) w).

(** A native call that may keep the caller suspended. *)
Definition native_wait {A} (f : W -> option (A * W)) : M W A :=
  fun s => match f (world s) with
           | Some (a, w) => Returns a (State (errno s) (heap s) w)
           | None => Blocks
           end.

(** A native query without effect. *)
Definition query {A} (f : W -> A) : M W A :=
  fun s => Returns (f (world s)) s.

(** [errno = v;] *)
Definition set_errno (v : Z) : M W unit :=
  fun s => Returns tt (State (to_int v) (heap s) (world s)).

(** [*p = v;] *)
Definition store (p v : Z) : M W unit :=
  fun s => Returns tt (State (errno s) (<[p := v]> (heap s)) (world s)).

(** [*p]; a cell that was never written reads as 0. *)
Definition load (p : Z) : M W Z :=
  fun s => Returns (default 0 (heap s !! p)) s.

(** The result code of a call, when it returns. *)
Definition result_code {A} (o : outcome W A) : option A :=
  match o with
  | Returns a _ => Some a
  | Blocks => None
  end.

(** The state a call leaves, when it returns. *)
Definition final_state {A} (o : outcome W A) : option (state W) :=
  match o with
  | Returns _ s => Some s
  | Blocks => None
  end.
End Monad.

(** Sequencing, written as in the C text: one statement after the other. *)
Declare Scope thrd_scope.
Notation "x <- c ;; k" := (bind c (fun x => k))
  (at level 100, c at next level, right associativity, only parsing)
  : thrd_scope.
Notation "c ;; k" := (bind c (fun _ => k))
  (at level 100, right associativity, only parsing) : thrd_scope.
Local Open Scope thrd_scope.

(** ** The [__unix__] branch *)

Module Posix.

(** The POSIX primitives the library calls, over an abstract system
    state [W].  A primitive that has an out-parameter returns what it
    stores there next to its status.  A [pthread_mutex_t] is named by
    its address; what the mutex primitives keep in it is part of [W], so
    [heap] says nothing about the cells a [pthread_mutex_t] occupies. *)
Class Native (W : Type) : Type := {
  (** <errno.h> *)
  EINVAL : Z;
  EBUSY : Z;
  (** status, and the identifier stored through the first argument *)
  pthread_create : (Z -> Z) -> Z -> W -> (Z * option Z) * W;
  pthread_self : W -> Z;
  pthread_detach : Z -> W -> Z * W;
  (** status, and the exit pointer stored through the second argument;
      [None]: the target has not terminated, the caller keeps waiting *)
  pthread_join : Z -> W -> option ((Z * option Z) * W);
  pthread_yield : W -> Z * W;
  (** the flag says whether the attribute object asks for
      PTHREAD_MUTEX_RECURSIVE; [false] stands for NULL attributes *)
  pthread_mutex_init : Z -> bool -> W -> Z * W;
  pthread_mutex_destroy : Z -> W -> Z * W;
  (** [None]: the mutex is held, the caller keeps waiting *)
  pthread_mutex_lock : Z -> W -> option (Z * W);
  pthread_mutex_trylock : Z -> W -> Z * W;
  pthread_mutex_unlock : Z -> W -> Z * W
}.

Section Wrappers.
Context {W : Type} `{Native W}.

(** [thr] is the address of the caller's [thrd_t]; [func] is called
    through a cast to [POSIX_START_ROUTINE]. *)
Definition thrd_create (thr : Z) (func : Z -> Z) (arg : Z) : M W Z :=
  r <- native (pthread_create func arg) ;;
  let '(value, id) := r in
  match id with Some t => store thr t | None => ret tt end ;;
  if value !=? 0 then
    set_errno value ;;
    ret thrd_error
  else
    ret thrd_success.

Definition thrd_current : M W Z :=
  query pthread_self.

Definition thrd_detach (thr : Z) : M W Z :=
  value <- native (pthread_detach thr) ;;
  if value !=? 0 then
    set_errno value ;;
    ret thrd_error
  else
    ret thrd_success.

Definition thrd_equal (lhs rhs : Z) : M W Z :=
  ret (Z.b2z (lhs =? rhs)).

(** [pthread_join(thr, (void** ) &res)]: the primitive is handed the
    address of the parameter [res] itself, so the exit pointer
    replaces the local copy of the pointer; the cell the caller passed
    is not written. *)
Definition thrd_join (thr : Z) (res : Z) : M W Z :=
  r <- native_wait (pthread_join thr) ;;
  let '(value, retval) := r in
  let res := default res retval in
  if value !=? 0 then
    set_errno value ;;
    ret thrd_error
  else
    ret thrd_success.

Definition thrd_yield : M W unit :=
  value <- native pthread_yield ;;
  if value !=? 0 then
    set_errno value
  else
    ret tt.

Definition mtx_destroy (mutex : Z) : M W unit :=
  value <- native (pthread_mutex_destroy mutex) ;;
  if value !=? 0 then
    set_errno value
  else
    ret tt.

Definition mtx_init (mutex : Z) (type : Z) : M W Z :=
  let check (value : Z) : M W Z :=
    if value !=? 0 then
      set_errno value ;;
      ret thrd_error
    else
      ret thrd_success in
  if type =? Z.lor mtx_plain mtx_recursive then
    value <- native (pthread_mutex_init mutex true) ;;
    check value
  else if type =? mtx_plain then
    value <- native (pthread_mutex_init mutex false) ;;
    check value
  else
    set_errno EINVAL ;;
    ret thrd_error.

Definition mtx_lock (mutex : Z) : M W Z :=
  value <- native_wait (pthread_mutex_lock mutex) ;;
  if value !=? 0 then
    set_errno value ;;
    ret thrd_error
  else
    ret thrd_success.

Definition mtx_trylock (mutex : Z) : M W Z :=
  value <- native (pthread_mutex_trylock mutex) ;;
  if value !=? 0 then
    set_errno value ;;
    ret (if value =? EBUSY then thrd_busy else thrd_error)
  else
    ret thrd_success.

Definition mtx_unlock (mutex : Z) : M W Z :=
  value <- native (pthread_mutex_unlock mutex) ;;
  if value !=? 0 then
    set_errno value ;;
    ret thrd_error
  else
    ret thrd_success.
End Wrappers.

End Posix.

(** ** The [_WIN32] branch *)

Module Win32.

(** The Win32 primitives the library calls.  [thrd_t] and [mtx_t] are
    both [HANDLE]; a [BOOL] result is 0 for failure. *)
Class Native (W : Type) : Type := {
  (** <winbase.h> *)
  INFINITE : Z;
  WAIT_OBJECT_0 : Z;
  WAIT_TIMEOUT : Z;
  WAIT_FAILED : Z;
  (** start routine and its argument; the other arguments are defaults *)
  CreateThread : (Z -> Z) -> Z -> W -> Z * W;
  GetCurrentThread : W -> Z;
  CloseHandle : Z -> W -> Z * W;
  GetThreadId : Z -> W -> Z * W;
  (** handle and time-out interval; [None]: the object stays
      non-signaled and the interval does not elapse, the caller keeps
      waiting *)
  WaitForSingleObject : Z -> Z -> W -> option (Z * W);
  SwitchToThread : W -> Z * W;
  (** the [bInitialOwner] argument; the other arguments are defaults *)
  CreateMutex : bool -> W -> Z * W;
  ReleaseMutex : Z -> W -> Z * W;
  GetLastError : W -> Z
}.

Section Wrappers.
Context {W : Type} `{Native W}.

(** [#define thrd_errno GetLastError()] *)
Definition thrd_errno : M W Z :=
  query GetLastError.

Definition thrd_create (thr : Z) (func : Z -> Z) (arg : Z) : M W Z :=
  h <- native (CreateThread func arg) ;;
  store thr h ;;
  v <- load thr ;;
  if v =? NULL then
    e <- thrd_errno ;;
    set_errno e ;;
    ret thrd_error
  else
    ret thrd_success.

Definition thrd_current : M W Z :=
  query GetCurrentThread.

Definition thrd_detach (thr : Z) : M W Z :=
  r <- native (CloseHandle thr) ;;
  if r =? 0 then
    e <- thrd_errno ;;
    set_errno e ;;
    ret thrd_error
  else
    ret thrd_success.

Definition thrd_equal (lhs rhs : Z) : M W Z :=
  lhsValue <- native (GetThreadId lhs) ;;
  if lhsValue =? 0 then
    e <- thrd_errno ;;
    set_errno e ;;
    ret thrd_error
  else
    rhsValue <- native (GetThreadId rhs) ;;
    if rhsValue =? 0 then
      e <- thrd_errno ;;
      set_errno e ;;
      ret thrd_error
    else
      ret (Z.b2z (lhsValue =? rhsValue)).

Definition thrd_join (thr : Z) (res : Z) : M W Z :=
  status <- native_wait (WaitForSingleObject thr INFINITE) ;;
  (if res !=? NULL then store res (to_int status) else ret tt) ;;
  if status !=? WAIT_OBJECT_0 then
    (if status =? WAIT_FAILED then
       e <- thrd_errno ;;
       set_errno e
     else
       set_errno status) ;;
    ret thrd_error
  else
    ret thrd_success.

Definition thrd_yield : M W unit :=
  _ <- native SwitchToThread ;;
  ret tt.

Definition mtx_destroy (mutex : Z) : M W unit :=
  h <- load mutex ;;
  r <- native (CloseHandle h) ;;
  if r =? 0 then
    e <- thrd_errno ;;
    set_errno e
  else
    ret tt.

Definition mtx_init (mutex : Z) (type : Z) : M W Z :=
  if (type !=? mtx_plain) || (type !=? Z.lor mtx_plain mtx_recursive) then
    ret thrd_error
  else
    let owner := Z.land type mtx_recursive =? mtx_recursive in
    h <- native (CreateMutex owner) ;;
    store mutex h ;;
    v <- load mutex ;;
    if v =? NULL then
      e <- thrd_errno ;;
      set_errno e ;;
      ret thrd_error
    else
      ret thrd_success.

Definition mtx_lock (mutex : Z) : M W Z :=
  h <- load mutex ;;
  status <- native_wait (WaitForSingleObject h INFINITE) ;;
  if status !=? WAIT_OBJECT_0 then
    (if status =? WAIT_FAILED then
       e <- thrd_errno ;;
       set_errno e
     else
       set_errno status) ;;
    ret thrd_error
  else
    ret thrd_success.

Definition mtx_trylock (mutex : Z) : M W Z :=
  h <- load mutex ;;
  status <- native_wait (WaitForSingleObject h INFINITE) ;;
  if status !=? WAIT_OBJECT_0 then
    if status =? WAIT_TIMEOUT then
      set_errno status ;;
      ret thrd_busy
    else if status =? WAIT_FAILED then
      e <- thrd_errno ;;
      set_errno e ;;
      ret thrd_error
    else
      set_errno status ;;
      ret thrd_error
  else
    ret thrd_success.

Definition mtx_unlock (mutex : Z) : M W Z :=
  h <- load mutex ;;
  r <- native (ReleaseMutex h) ;;
  if r =? 0 then
    e <- thrd_errno ;;
    set_errno e ;;
    ret thrd_error
  else
    ret thrd_success.
End Wrappers.

End Win32.

(** ** Reference kernels

    Executable models of the two native interfaces, after the documented
    behaviour of the primitives, seen from one calling thread [self].
    Other threads appear through what they left in the kernel: a thread
    is running or has terminated, a mutex is free or held by somebody. *)

Inductive thread : Type :=
| Running (start_routine : Z -> Z) (arg : Z)
| Terminated (exit_value : Z).

Module PosixKernel.

Record mutex : Type := Mutex {
  recursive : bool;
  holder : option (Z * nat)      (* owning thread and lock count *)
}.

Record kernel : Type := Kernel {
  self : Z;
  threads : gmap Z thread;
  mutexes : gmap Z mutex;        (* by address of the pthread_mutex_t *)
  next_id : Z;
  free_slots : nat               (* threads the system can still create *)
}.

Definition EPERM : Z := 1.
Definition ESRCH : Z := 3.
Definition EAGAIN : Z := 11.
Definition EBUSY : Z := 16.
Definition EINVAL : Z := 22.

Definition set_threads (k : kernel) (t : gmap Z thread) : kernel :=
  Kernel (self k) t (mutexes k) (next_id k) (free_slots k).

Definition set_mutexes (k : kernel) (m : gmap Z mutex) : kernel :=
  Kernel (self k) (threads k) m (next_id k) (free_slots k).

Definition create (func : Z -> Z) (arg : Z) (k : kernel)
  : (Z * option Z) * kernel :=
  match free_slots k with
  | O => ((EAGAIN, None), k)
  | S n =>
      ((0, Some (next_id k)),
       Kernel (self k) (<[next_id k := Running func arg]> (threads k))
              (mutexes k) (next_id k + 1) n)
  end.

Definition detach (t : Z) (k : kernel) : Z * kernel :=
  match threads k !! t with
  | Some _ => (0, k)
  | None => (ESRCH, k)
  end.

Definition join (t : Z) (k : kernel) : option ((Z * option Z) * kernel) :=
  match threads k !! t with
  | Some (Terminated v) => Some ((0, Some v), set_threads k (delete t (threads k)))
  | Some (Running _ _) => None
  | None => Some ((ESRCH, None), k)
  end.

Definition yield (k : kernel) : Z * kernel := (0, k).

Definition mutex_init (m : Z) (rec : bool) (k : kernel) : Z * kernel :=
  (0, set_mutexes k (<[m := Mutex rec None]> (mutexes k))).

Definition mutex_destroy (m : Z) (k : kernel) : Z * kernel :=
  match mutexes k !! m with
  | Some (Mutex _ None) => (0, set_mutexes k (delete m (mutexes k)))
  | Some (Mutex _ (Some _)) => (EBUSY, k)
  | None => (EINVAL, k)
  end.

(** What an acquisition attempt finds. *)
Inductive attempt : Type :=
| Acquired (k : kernel)
| Held                         (* by another thread, or by the caller of
                                  a non-recursive mutex *)
| Invalid.

Definition acquire (m : Z) (k : kernel) : attempt :=
  match mutexes k !! m with
  | Some (Mutex rec None) =>
      Acquired (set_mutexes k (<[m := Mutex rec (Some (self k, 1%nat))]> (mutexes k)))
  | Some (Mutex rec (Some (t, n))) =>
      if (t =? self k) && rec then
        Acquired (set_mutexes k (<[m := Mutex rec (Some (t, S n))]> (mutexes k)))
      else Held
  | None => Invalid
  end.

Definition mutex_lock (m : Z) (k : kernel) : option (Z * kernel) :=
  match acquire m k with
  | Acquired k' => Some (0, k')
  | Held => None
  | Invalid => Some (EINVAL, k)
  end.

Definition mutex_trylock (m : Z) (k : kernel) : Z * kernel :=
  match acquire m k with
  | Acquired k' => (0, k')
  | Held => (EBUSY, k)
  | Invalid => (EINVAL, k)
  end.

Definition mutex_unlock (m : Z) (k : kernel) : Z * kernel :=
  match mutexes k !! m with
  | Some (Mutex rec (Some (t, n))) =>
      if t =? self k then
        match n with
        | S (S n') => (0, set_mutexes k (<[m := Mutex rec (Some (t, S n'))]> (mutexes k)))
        | _ => (0, set_mutexes k (<[m := Mutex rec None]> (mutexes k)))
        end
      else (EPERM, k)
  | Some (Mutex _ None) => (EPERM, k)
  | None => (EINVAL, k)
  end.

#[global] Instance api : Posix.Native kernel := {|
  Posix.EINVAL := EINVAL;
  Posix.EBUSY := EBUSY;
  Posix.pthread_create := create;
  Posix.pthread_self := self;
  Posix.pthread_detach := detach;
  Posix.pthread_join := join;
  Posix.pthread_yield := yield;
  Posix.pthread_mutex_init := mutex_init;
  Posix.pthread_mutex_destroy := mutex_destroy;
  Posix.pthread_mutex_lock := mutex_lock;
  Posix.pthread_mutex_trylock := mutex_trylock;
  Posix.pthread_mutex_unlock := mutex_unlock
|}.

(** Thread [t] runs its start routine to the end. *)
Definition finish (t : Z) (k : kernel) : kernel :=
  match threads k !! t with
  | Some (Running func arg) =>
      set_threads k (<[t := Terminated (func arg)]> (threads k))
  | _ => k
  end.

(** A fresh system: the main thread 1 alone. *)
Definition boot (slots : nat) : kernel :=
  Kernel 1 ∅ ∅ 2 slots.

End PosixKernel.

Module Win32Kernel.

Inductive object : Type :=
| ThreadObject (id : Z) (t : thread)
| MutexObject (holder : option (Z * nat)).   (* owning thread id and count *)

Record kernel : Type := Kernel {
  self : Z;                      (* id of the calling thread *)
  objects : gmap Z object;       (* by handle *)
  next_handle : Z;
  next_id : Z;
  free_slots : nat;              (* objects the system can still create *)
  last_error : Z
}.

Definition INFINITE : Z := 4294967295.
Definition WAIT_OBJECT_0 : Z := 0.
Definition WAIT_TIMEOUT : Z := 258.
Definition WAIT_FAILED : Z := 4294967295.
Definition ERROR_INVALID_HANDLE : Z := 6.
Definition ERROR_NOT_ENOUGH_MEMORY : Z := 8.
Definition ERROR_NOT_OWNER : Z := 288.

(** The pseudo handle [GetCurrentThread] returns. *)
Definition current_thread : Z := -2.

Definition set_objects (k : kernel) (o : gmap Z object) : kernel :=
  Kernel (self k) o (next_handle k) (next_id k) (free_slots k) (last_error k).

Definition set_last_error (k : kernel) (e : Z) : kernel :=
  Kernel (self k) (objects k) (next_handle k) (next_id k) (free_slots k) e.

Definition new_object (mk : Z -> object) (k : kernel) : Z * kernel :=
  match free_slots k with
  | O => (NULL, set_last_error k ERROR_NOT_ENOUGH_MEMORY)
  | S n =>
      (next_handle k,
       Kernel (self k) (<[next_handle k := mk (next_id k)]> (objects k))
              (next_handle k + 4) (next_id k + 1) n (last_error k))
  end.

Definition create_thread (func : Z -> Z) (arg : Z) (k : kernel) : Z * kernel :=
  new_object (fun id => ThreadObject id (Running func arg)) k.

Definition create_mutex (owner : bool) (k : kernel) : Z * kernel :=
  new_object
    (fun _ => MutexObject (if owner then Some (self k, 1%nat) else None)) k.

Definition close_handle (h : Z) (k : kernel) : Z * kernel :=
  match objects k !! h with
  | Some _ => (1, set_objects k (delete h (objects k)))
  | None => (0, set_last_error k ERROR_INVALID_HANDLE)
  end.

Definition get_thread_id (h : Z) (k : kernel) : Z * kernel :=
  if h =? current_thread then (self k, k)
  else match objects k !! h with
       | Some (ThreadObject id _) => (id, k)
       | _ => (0, set_last_error k ERROR_INVALID_HANDLE)
       end.

(** A wait on a non-signaled object ends with WAIT_TIMEOUT when the
    interval elapses; with an INFINITE interval it does not end. *)
Definition not_signaled (ms : Z) (k : kernel) : option (Z * kernel) :=
  if ms =? INFINITE then None else Some (WAIT_TIMEOUT, k).

Definition wait_for_single_object (h ms : Z) (k : kernel)
  : option (Z * kernel) :=
  if h =? current_thread then not_signaled ms k
  else match objects k !! h with
       | Some (ThreadObject _ (Terminated _)) => Some (WAIT_OBJECT_0, k)
       | Some (ThreadObject _ (Running _ _)) => not_signaled ms k
       | Some (MutexObject None) =>
           Some (WAIT_OBJECT_0,
                 set_objects k (<[h := MutexObject (Some (self k, 1%nat))]> (objects k)))
       | Some (MutexObject (Some (t, n))) =>
           if t =? self k then
             Some (WAIT_OBJECT_0,
                   set_objects k (<[h := MutexObject (Some (t, S n))]> (objects k)))
           else not_signaled ms k
       | None => Some (WAIT_FAILED, set_last_error k ERROR_INVALID_HANDLE)
       end.

Definition switch_to_thread (k : kernel) : Z * kernel := (0, k).

Definition release_mutex (h : Z) (k : kernel) : Z * kernel :=
  match objects k !! h with
  | Some (MutexObject (Some (t, n))) =>
      if t =? self k then
        match n with
        | S (S n') => (1, set_objects k (<[h := MutexObject (Some (t, S n'))]> (objects k)))
        | _ => (1, set_objects k (<[h := MutexObject None]> (objects k)))
        end
      else (0, set_last_error k ERROR_NOT_OWNER)
  | Some (MutexObject None) => (0, set_last_error k ERROR_NOT_OWNER)
  | _ => (0, set_last_error k ERROR_INVALID_HANDLE)
  end.

#[global] Instance api : Win32.Native kernel := {|
  Win32.INFINITE := INFINITE;
  Win32.WAIT_OBJECT_0 := WAIT_OBJECT_0;
  Win32.WAIT_TIMEOUT := WAIT_TIMEOUT;
  Win32.WAIT_FAILED := WAIT_FAILED;
  Win32.CreateThread := create_thread;
  Win32.GetCurrentThread := fun _ => current_thread;
  Win32.CloseHandle := close_handle;
  Win32.GetThreadId := get_thread_id;
  Win32.WaitForSingleObject := wait_for_single_object;
  Win32.SwitchToThread := switch_to_thread;
  Win32.CreateMutex := create_mutex;
  Win32.ReleaseMutex := release_mutex;
  Win32.GetLastError := last_error
|}.

(** The thread behind handle [h] runs its start routine to the end;
    its exit code is the routine's result as a DWORD. *)
Definition finish (h : Z) (k : kernel) : kernel :=
  match objects k !! h with
  | Some (ThreadObject id (Running func arg)) =>
      set_objects k (<[h := ThreadObject id (Terminated (to_DWORD (func arg)))]> (objects k))
  | _ => k
  end.

(** A fresh system: the main thread 1 alone, no error recorded. *)
Definition boot (slots : nat) : kernel :=
  Kernel 1 ∅ 4 2 slots 0.

End Win32Kernel.

(** ** Scenarios

    The calling sequences of the testable properties, as programs. *)

(** An action of the system between two calls of the caller. *)
Definition meanwhile {W : Type} (f : W -> W) : M W unit :=
  native (fun w => (tt, f w)).

Module Scenario.

(** [thrd_equal(thrd_current(), thrd_current())] *)
Definition posix_equal_current {W : Type} `{Posix.Native W} : M W Z :=
  lhs <- Posix.thrd_current ;;
  rhs <- Posix.thrd_current ;;
  Posix.thrd_equal lhs rhs.

Definition win32_equal_current {W : Type} `{Win32.Native W} : M W Z :=
  lhs <- Win32.thrd_current ;;
  rhs <- Win32.thrd_current ;;
  Win32.thrd_equal lhs rhs.

(** [thrd_create(&thr, func, arg)], the new thread runs [func] to its
    [return], then [thrd_join(thr, res)]. *)
Definition posix_create_join (thr : Z) (func : Z -> Z) (arg res : Z)
  : M PosixKernel.kernel Z :=
  _ <- Posix.thrd_create thr func arg ;;
  t <- load thr ;;
  meanwhile (PosixKernel.finish t) ;;
  Posix.thrd_join t res.

Definition win32_create_join (thr : Z) (func : Z -> Z) (arg res : Z)
  : M Win32Kernel.kernel Z :=
  _ <- Win32.thrd_create thr func arg ;;
  t <- load thr ;;
  meanwhile (Win32Kernel.finish t) ;;
  Win32.thrd_join t res.

(** [mtx_init(&m, type); mtx_lock(&m); mtx_unlock(&m); mtx_destroy(&m)],
    collecting the three result codes. *)
Definition posix_round_trip {W : Type} `{Posix.Native W} (mutex type : Z)
  : M W (Z * Z * Z) :=
  a <- Posix.mtx_init mutex type ;;
  b <- Posix.mtx_lock mutex ;;
  c <- Posix.mtx_unlock mutex ;;
  Posix.mtx_destroy mutex ;;
  ret (a, b, c).

Definition win32_round_trip {W : Type} `{Win32.Native W} (mutex type : Z)
  : M W (Z * Z * Z) :=
  a <- Win32.mtx_init mutex type ;;
  b <- Win32.mtx_lock mutex ;;
  c <- Win32.mtx_unlock mutex ;;
  Win32.mtx_destroy mutex ;;
  ret (a, b, c).

(** The caller's memory at start: an [int] holding 7 at address 100, room
    for a [thrd_t] at 50 and for a [mtx_t] at 200. *)
Definition memory : gmap Z Z := <[100 := 7]> ∅.

Definition posix_start (slots : nat) : state PosixKernel.kernel :=
  State 0 memory (PosixKernel.boot slots).

Definition win32_start (slots : nat) : state Win32Kernel.kernel :=
  State 0 memory (Win32Kernel.boot slots).

(** A Win32 system in which thread 2 holds the mutex behind handle 4, and
    the caller keeps that handle in the [mtx_t] at address 200. *)
Definition win32_held_by_other : state Win32Kernel.kernel :=
  State 0 (<[200 := 4]> memory)
        (Win32Kernel.Kernel 1 (<[4 := Win32Kernel.MutexObject (Some (2, 1%nat))]> ∅)
                            8 3 8%nat 0).

(** The same on POSIX: thread 2 holds the plain mutex at address 200. *)
Definition posix_held_by_other : state PosixKernel.kernel :=
  State 0 memory
        (PosixKernel.Kernel 1 ∅ (<[200 := PosixKernel.Mutex false (Some (2, 1%nat))]> ∅)
                            3 8%nat).

End Scenario.

(** ** The result translation, as a table

    What each wrapper makes of the status of its native call. *)

Module Translation.

(** POSIX calls report 0 for success; everything else is an error. *)
Definition posix (value : Z) : Z :=
  if value =? 0 then thrd_success else thrd_error.

(** [pthread_mutex_trylock]: EBUSY is the one status that means "held". *)
Definition posix_trylock (ebusy value : Z) : Z :=
  if value =? 0 then thrd_success
  else if value =? ebusy then thrd_busy
  else thrd_error.

(** A Win32 wait in [mtx_lock] and [thrd_join]: everything but
    WAIT_OBJECT_0 is an error, a time-out included. *)
Definition win32_wait (wait_object_0 status : Z) : Z :=
  if status =? wait_object_0 then thrd_success else thrd_error.

(** The wait in [mtx_trylock]: a time-out means "held". *)
Definition win32_trylock (wait_object_0 wait_timeout status : Z) : Z :=
  if status =? wait_object_0 then thrd_success
  else if status =? wait_timeout then thrd_busy
  else thrd_error.

(** What a failed Win32 wait leaves in [errno]: the last error for
    WAIT_FAILED, the status itself otherwise. *)
Definition win32_wait_errno (wait_failed status last_error : Z) : Z :=
  to_int (if status =? wait_failed then last_error else status).

(** The same for the wait of [mtx_trylock], which looks for
    WAIT_TIMEOUT first. *)
Definition win32_trylock_errno
    (wait_timeout wait_failed status last_error : Z) : Z :=
  to_int (if status =? wait_timeout then status
          else if status =? wait_failed then last_error
          else status).

End Translation.

(** ** The translation rule of the specification

    The rule in the specification's words, over the native conditions it
    names, and what each status stands for at the call that receives it. *)

Module Rule.







End Rule.

(** ** Observations on calls

    Predicates on the outcome of a call made in state [s], and the
    sequencing of several calls. *)

Module Observe.

(** A call that returns [thrd_success] leaves [errno] as it found it. *)
Definition keeps_errno_on_success {W : Type} (s : state W) (c : M W Z) : Prop :=
  forall s', c s = Returns thrd_success s' -> errno s' = errno s.

(** The call has not returned, or its result is one of the two codes. *)
Definition success_or_error (code : option Z) : Prop :=
  code = None \/ code = Some thrd_success \/ code = Some thrd_error.

(** The state a call left has the caller's memory of [s]. *)
Definition same_heap {W : Type} (s : state W) (after : option (state W)) : Prop :=
  forall s', after = Some s' -> heap s' = heap s.

(** The state a call left differs from the memory of [s] at most in the
    cell at [p]. *)
Definition same_heap_but {W : Type} (p : Z) (s : state W)
    (after : option (state W)) : Prop :=
  forall s' q, after = Some s' -> q <> p -> heap s' !! q = heap s !! q.

End Observe.

(** Calls made one after the other, with their result codes in order. *)
Fixpoint calls {W : Type} (cs : list (M W Z)) : M W (list Z) :=
  match cs with
  | [] => ret []
  | c :: cs =>
      a <- c ;;
      r <- calls cs ;;
      ret (a :: r)
  end.

(** The POSIX reference kernel seen from thread [t]: the scheduler has
    switched to it. *)
Definition posix_switch_to (t : Z) (k : PosixKernel.kernel) : PosixKernel.kernel :=
  PosixKernel.Kernel t (PosixKernel.threads k) (PosixKernel.mutexes k)
                     (PosixKernel.next_id k) (PosixKernel.free_slots k).

(** Who holds the mutex at address [m], and how many times. *)
Definition posix_holder (m : Z) (s : state PosixKernel.kernel)
  : option (option (Z * nat)) :=
  PosixKernel.holder <$> PosixKernel.mutexes (world s) !! m.

(** A call made by thread [t] of the POSIX reference kernel. *)
Definition as_thread {A : Type} (t : Z) (c : M PosixKernel.kernel A)
  : M PosixKernel.kernel A :=
  meanwhile (posix_switch_to t) ;;
  c.

(** The state [s] of the POSIX reference kernel with [errno] set to [e],
    thread [t] running and the mutex at [m] in state [x]. *)
Definition posix_with (e t m : Z) (x : PosixKernel.mutex)
    (s : state PosixKernel.kernel) : state PosixKernel.kernel :=
  State e (heap s)
        (PosixKernel.Kernel t (PosixKernel.threads (world s))
           (<[m := x]> (PosixKernel.mutexes (world s)))
           (PosixKernel.next_id (world s)) (PosixKernel.free_slots (world s))).

(** Calling sequences around the life of one thread. *)
Module Lifecycle.

(** [thrd_create(&thr, func, arg); thrd_join(thr, res)] while the new
    thread is still running. *)
Definition posix_join_running (thr : Z) (func : Z -> Z) (arg res : Z)
  : M PosixKernel.kernel Z :=
  _ <- Posix.thrd_create thr func arg ;;
  t <- load thr ;;
  Posix.thrd_join t res.

Definition win32_join_running (thr : Z) (func : Z -> Z) (arg res : Z)
  : M Win32Kernel.kernel Z :=
  _ <- Win32.thrd_create thr func arg ;;
  t <- load thr ;;
  Win32.thrd_join t res.

(** Create, the thread runs to its end, join, then [thrd_detach] on the
    same handle; the results of the join and of the detach. *)
Definition win32_join_detach (thr : Z) (func : Z -> Z) (arg res : Z)
  : M Win32Kernel.kernel (Z * Z) :=
  _ <- Win32.thrd_create thr func arg ;;
  t <- load thr ;;
  meanwhile (Win32Kernel.finish t) ;;
  a <- Win32.thrd_join t res ;;
  b <- Win32.thrd_detach t ;;
  ret (a, b).

End Lifecycle.

(** * Properties *)

(** ** Integer facts *)

Lemma Zneqb_false (a b : Z) : (a !=? b) = false <-> a = b.
Proof.
  unfold Zneqb. rewrite negb_false_iff. apply Z.eqb_eq.
Qed.

Lemma Zneqb_true (a b : Z) : (a !=? b) = true <-> a <> b.
Proof.
  unfold Zneqb. rewrite negb_true_iff. apply Z.eqb_neq.
Qed.

Lemma Zneqb_refl (a : Z) : (a !=? a) = false.
Proof. now apply Zneqb_false. Qed.

Lemma result_codes_distinct :
  thrd_success <> thrd_error /\ thrd_busy <> thrd_timedout /\
  thrd_error <> thrd_timedout /\ thrd_error <> thrd_nomem /\
  thrd_success <> thrd_timedout /\ thrd_success <> thrd_nomem /\
  thrd_error <> 0.
Proof. repeat split; discriminate. Qed.

(** Unfolding one wrapper down to the native calls it makes. *)
Ltac run :=
  unfold bind, native, native_wait, query, set_errno, store, load, ret;
  cbn [result_code final_state errno heap world fst snd].

(** ** Mutex creation *)

Section MtxInit.
Context {PW : Type} `{Posix.Native PW} {WW : Type} `{Win32.Native WW}.

(** The guard of the Win32 branch, [type != mtx_plain || type !=
    (mtx_plain | mtx_recursive)], holds for every [type]: no integer is
    equal to both 0 and 1. *)
Lemma win32_guard_always (type : Z) :
  (type !=? mtx_plain) || (type !=? Z.lor mtx_plain mtx_recursive) = true.
Proof.
  destruct (type !=? mtx_plain) eqn:E; [reflexivity|].
  apply Zneqb_false in E. subst type. reflexivity.
Qed.

(** So the Win32 [mtx_init] never reaches [CreateMutex]. *)
Lemma win32_mtx_init_rejects (mutex type : Z) (s : state WW) :
  Win32.mtx_init mutex type s = Returns thrd_error s.
Proof.
  unfold Win32.mtx_init. rewrite win32_guard_always. reflexivity.
Qed.

(** The POSIX [mtx_init] rejects a kind that is neither [mtx_plain] nor
    [mtx_plain | mtx_recursive] with EINVAL, before any native call. *)
Lemma posix_mtx_init_rejects (mutex type : Z) (s : state PW) :
  type <> mtx_plain -> type <> Z.lor mtx_plain mtx_recursive ->
  Posix.mtx_init mutex type s =
  Returns thrd_error (State (to_int Posix.EINVAL) (heap s) (world s)).
Proof.
  intros Hp Hr. unfold Posix.mtx_init.
  apply Z.eqb_neq in Hp, Hr. rewrite Hp, Hr. reflexivity.
Qed.

(** For the two supported kinds the POSIX [mtx_init] forwards the status
    of [pthread_mutex_init]. *)
Lemma posix_mtx_init_supported (mutex type : Z) (s : state PW) :
  type = mtx_plain \/ type = Z.lor mtx_plain mtx_recursive ->
  result_code (Posix.mtx_init mutex type s) =
  Some (Translation.posix
          (fst (Posix.pthread_mutex_init mutex (type =? 1) (world s)))).
Proof.
  intros [-> | ->]; unfold Posix.mtx_init; simpl; run;
    destruct (Posix.pthread_mutex_init _ _ _) as [v w]; simpl;
    unfold Translation.posix, Zneqb; destruct (v =? 0); reflexivity.
Qed.

(** C3 (the code breaks it on Win32): on the Win32 branch [mtx_init] with
    kind [mtx_plain] returns [thrd_error] and leaves the whole state as it
    was, whatever the native primitives would do; no mutex is created, so
    the round trip init, lock, unlock, destroy does not start with
    [thrd_success]. *)
Theorem win32_mtx_init_plain_fails (mutex : Z) (s : state WW) :
  Win32.mtx_init mutex mtx_plain s = Returns thrd_error s /\
  thrd_error <> thrd_success.
Proof.
  split; [apply win32_mtx_init_rejects | discriminate].
Qed.

(** C4 (the code breaks it on Win32): the failing return of the Win32
    [mtx_init] stores nothing in [errno]; the slot holds after the call
    what it held before. *)
Theorem win32_mtx_init_keeps_errno (mutex type : Z) (s : state WW) :
  exists s', Win32.mtx_init mutex type s = Returns thrd_error s' /\
             errno s' = errno s.
Proof.
  exists s. split; [apply win32_mtx_init_rejects | reflexivity].
Qed.

(** C7: a kind other than [mtx_plain] and [mtx_plain | mtx_recursive],
    [mtx_timed] among them, makes [mtx_init] return [thrd_error] on both
    branches; the system state is untouched, so no mutex of any kind has
    been created in its place. *)
Theorem mtx_init_unsupported_kind
    (mutex type : Z) (ps : state PW) (ws : state WW) :
  type <> mtx_plain -> type <> Z.lor mtx_plain mtx_recursive ->
  (exists ps', Posix.mtx_init mutex type ps = Returns thrd_error ps' /\
               world ps' = world ps /\ heap ps' = heap ps) /\
  (exists ws', Win32.mtx_init mutex type ws = Returns thrd_error ws' /\
               world ws' = world ws /\ heap ws' = heap ws) /\
  thrd_error <> thrd_success.
Proof.
  intros Hp Hr. split; [|split].
  - eexists. split; [apply posix_mtx_init_rejects; assumption|].
    split; reflexivity.
  - exists ws. split; [apply win32_mtx_init_rejects|]. split; reflexivity.
  - discriminate.
Qed.

End MtxInit.

(** C7 at [mtx_timed], on the two reference kernels. *)
Lemma mtx_init_unsupported_kind_witness :
  (exists ps', Posix.mtx_init 200 mtx_timed (Scenario.posix_start 8)
               = Returns thrd_error ps' /\
               world ps' = world (Scenario.posix_start 8) /\
               heap ps' = heap (Scenario.posix_start 8)) /\
  (exists ws', Win32.mtx_init 200 mtx_timed (Scenario.win32_start 8)
               = Returns thrd_error ws' /\
               world ws' = world (Scenario.win32_start 8) /\
               heap ws' = heap (Scenario.win32_start 8)) /\
  thrd_error <> thrd_success.
Proof.
  apply (mtx_init_unsupported_kind 200 mtx_timed
           (Scenario.posix_start 8) (Scenario.win32_start 8));
    vm_compute; discriminate.
Defined.

(** ** Thread creation *)

Section ThrdCreate.
Context {PW : Type} `{Posix.Native PW} {WW : Type} `{Win32.Native WW}.

(** POSIX: the result depends on the status of [pthread_create] alone. *)
Lemma posix_thrd_create_code (thr : Z) (func : Z -> Z) (arg : Z) (s : state PW) :
  result_code (Posix.thrd_create thr func arg s) =
  Some (Translation.posix (fst (fst (Posix.pthread_create func arg (world s))))).
Proof.
  unfold Posix.thrd_create. run.
  destruct (Posix.pthread_create func arg (world s)) as [[v [t|]] w]; simpl;
    unfold Translation.posix, Zneqb; destruct (v =? 0); reflexivity.
Qed.

(** Win32: the result depends on the handle [CreateThread] returns. *)
Lemma win32_thrd_create_code (thr : Z) (func : Z -> Z) (arg : Z) (s : state WW) :
  result_code (Win32.thrd_create thr func arg s) =
  Some (if fst (Win32.CreateThread func arg (world s)) =? NULL
        then thrd_error else thrd_success).
Proof.
  unfold Win32.thrd_create, Win32.thrd_errno. run.
  destruct (Win32.CreateThread func arg (world s)) as [h w]; simpl.
  rewrite lookup_insert_eq. simpl. destruct (h =? NULL); reflexivity.
Qed.

(** A failed creation leaves the native error in [errno]. *)
Lemma posix_thrd_create_errno (thr : Z) (func : Z -> Z) (arg : Z) (s : state PW) :
  fst (fst (Posix.pthread_create func arg (world s))) <> 0 ->
  errno <$> final_state (Posix.thrd_create thr func arg s) =
  Some (to_int (fst (fst (Posix.pthread_create func arg (world s))))).
Proof.
  unfold Posix.thrd_create. run.
  destruct (Posix.pthread_create func arg (world s)) as [[v [t|]] w]; simpl;
    intros Hv; apply Zneqb_true in Hv; rewrite Hv; reflexivity.
Qed.

Lemma win32_thrd_create_errno (thr : Z) (func : Z -> Z) (arg : Z) (s : state WW) :
  fst (Win32.CreateThread func arg (world s)) = NULL ->
  errno <$> final_state (Win32.thrd_create thr func arg s) =
  Some (to_int (Win32.GetLastError
                  (snd (Win32.CreateThread func arg (world s))))).
Proof.
  unfold Win32.thrd_create, Win32.thrd_errno. run.
  destruct (Win32.CreateThread func arg (world s)) as [h w]; simpl.
  intros ->. rewrite lookup_insert_eq. reflexivity.
Qed.

(** C6 (the code breaks it): [thrd_create] has two results only,
    [thrd_success] and [thrd_error].  Whatever the native creation
    reports, resource exhaustion included, the result is never
    [thrd_nomem]. *)
Theorem thrd_create_never_nomem
    (thr : Z) (func : Z -> Z) (arg : Z) (ps : state PW) (ws : state WW) :
  (result_code (Posix.thrd_create thr func arg ps) = Some thrd_success \/
   result_code (Posix.thrd_create thr func arg ps) = Some thrd_error) /\
  (result_code (Win32.thrd_create thr func arg ws) = Some thrd_success \/
   result_code (Win32.thrd_create thr func arg ws) = Some thrd_error) /\
  result_code (Posix.thrd_create thr func arg ps) <> Some thrd_nomem /\
  result_code (Win32.thrd_create thr func arg ws) <> Some thrd_nomem.
Proof.
  rewrite posix_thrd_create_code, win32_thrd_create_code.
  unfold Translation.posix.
  destruct (fst (fst (Posix.pthread_create func arg (world ps))) =? 0),
           (fst (Win32.CreateThread func arg (world ws)) =? NULL);
    repeat split; try (left; reflexivity); try (right; reflexivity);
    discriminate.
Qed.

End ThrdCreate.

(** Creation on a system that has no room left: the reference kernels
    report EAGAIN and ERROR_NOT_ENOUGH_MEMORY, the wrappers answer
    [thrd_error] and keep the native code in [errno]. *)
Example thrd_create_exhausted :
  result_code (Posix.thrd_create 50 (fun _ => 42) 0 (Scenario.posix_start 0))
  = Some thrd_error /\
  errno <$> final_state (Posix.thrd_create 50 (fun _ => 42) 0 (Scenario.posix_start 0))
  = Some PosixKernel.EAGAIN /\
  result_code (Win32.thrd_create 50 (fun _ => 42) 0 (Scenario.win32_start 0))
  = Some thrd_error /\
  errno <$> final_state (Win32.thrd_create 50 (fun _ => 42) 0 (Scenario.win32_start 0))
  = Some Win32Kernel.ERROR_NOT_ENOUGH_MEMORY.
Proof. repeat split; vm_compute; reflexivity. Qed.

(** With room left the handle is stored through [thr]. *)
Example thrd_create_populates_handle :
  result_code (Posix.thrd_create 50 (fun _ => 42) 0 (Scenario.posix_start 8))
  = Some thrd_success /\
  (fun s => heap s !! 50) <$>
    final_state (Posix.thrd_create 50 (fun _ => 42) 0 (Scenario.posix_start 8))
  = Some (Some 2) /\
  result_code (Win32.thrd_create 50 (fun _ => 42) 0 (Scenario.win32_start 8))
  = Some thrd_success /\
  (fun s => heap s !! 50) <$>
    final_state (Win32.thrd_create 50 (fun _ => 42) 0 (Scenario.win32_start 8))
  = Some (Some 4).
Proof. repeat split; vm_compute; reflexivity. Qed.

(** ** From native status to result code *)

Section ResultTranslation.
Context {PW : Type} `{Posix.Native PW} {WW : Type} `{Win32.Native WW}.

Lemma posix_mtx_trylock_code (mutex : Z) (s : state PW) :
  result_code (Posix.mtx_trylock mutex s) =
  Some (Translation.posix_trylock Posix.EBUSY
          (fst (Posix.pthread_mutex_trylock mutex (world s)))).
Proof.
  unfold Posix.mtx_trylock. run.
  destruct (Posix.pthread_mutex_trylock mutex (world s)) as [v w]; simpl.
  unfold Translation.posix_trylock, Zneqb. destruct (v =? 0); reflexivity.
Qed.

Lemma posix_mtx_lock_code (mutex : Z) (s : state PW) :
  result_code (Posix.mtx_lock mutex s) =
  Translation.posix ∘ fst <$> Posix.pthread_mutex_lock mutex (world s).
Proof.
  unfold Posix.mtx_lock. run.
  destruct (Posix.pthread_mutex_lock mutex (world s)) as [[v w]|]; simpl;
    [|reflexivity].
  unfold Translation.posix, Zneqb. destruct (v =? 0); reflexivity.
Qed.

Lemma posix_mtx_unlock_code (mutex : Z) (s : state PW) :
  result_code (Posix.mtx_unlock mutex s) =
  Some (Translation.posix (fst (Posix.pthread_mutex_unlock mutex (world s)))).
Proof.
  unfold Posix.mtx_unlock. run.
  destruct (Posix.pthread_mutex_unlock mutex (world s)) as [v w]; simpl.
  unfold Translation.posix, Zneqb. destruct (v =? 0); reflexivity.
Qed.

Lemma posix_thrd_join_code (thr res : Z) (s : state PW) :
  result_code (Posix.thrd_join thr res s) =
  Translation.posix ∘ fst ∘ fst <$> Posix.pthread_join thr (world s).
Proof.
  unfold Posix.thrd_join. run.
  destruct (Posix.pthread_join thr (world s)) as [[[v r] w]|]; simpl;
    [|reflexivity].
  unfold Translation.posix, Zneqb. destruct (v =? 0); reflexivity.
Qed.

Lemma win32_mtx_trylock_code (mutex : Z) (s : state WW) :
  result_code (Win32.mtx_trylock mutex s) =
  Translation.win32_trylock Win32.WAIT_OBJECT_0 Win32.WAIT_TIMEOUT ∘ fst <$>
    Win32.WaitForSingleObject (default 0 (heap s !! mutex)) Win32.INFINITE (world s).
Proof.
  unfold Win32.mtx_trylock, Win32.thrd_errno. run.
  destruct (Win32.WaitForSingleObject _ _ _) as [[st w]|]; simpl;
    [|reflexivity].
  unfold Translation.win32_trylock, Zneqb.
  destruct (st =? Win32.WAIT_OBJECT_0); simpl; [reflexivity|].
  destruct (st =? Win32.WAIT_TIMEOUT); simpl; [reflexivity|].
  destruct (st =? Win32.WAIT_FAILED); reflexivity.
Qed.

Lemma win32_mtx_lock_code (mutex : Z) (s : state WW) :
  result_code (Win32.mtx_lock mutex s) =
  Translation.win32_wait Win32.WAIT_OBJECT_0 ∘ fst <$>
    Win32.WaitForSingleObject (default 0 (heap s !! mutex)) Win32.INFINITE (world s).
Proof.
  unfold Win32.mtx_lock, Win32.thrd_errno. run.
  destruct (Win32.WaitForSingleObject _ _ _) as [[st w]|]; simpl;
    [|reflexivity].
  unfold Translation.win32_wait, Zneqb.
  destruct (st =? Win32.WAIT_OBJECT_0); simpl; [reflexivity|].
  destruct (st =? Win32.WAIT_FAILED); reflexivity.
Qed.

Lemma win32_thrd_join_code (thr res : Z) (s : state WW) :
  result_code (Win32.thrd_join thr res s) =
  Translation.win32_wait Win32.WAIT_OBJECT_0 ∘ fst <$>
    Win32.WaitForSingleObject thr Win32.INFINITE (world s).
Proof.
  unfold Win32.thrd_join, Win32.thrd_errno. run.
  destruct (Win32.WaitForSingleObject _ _ _) as [[st w]|]; simpl;
    [|reflexivity].
  unfold Translation.win32_wait, Zneqb.
  destruct (res =? NULL); simpl;
    (destruct (st =? Win32.WAIT_OBJECT_0); simpl; [reflexivity|]);
    destruct (st =? Win32.WAIT_FAILED); reflexivity.
Qed.

(** The tables have no entry [thrd_timedout]. *)
Lemma translation_never_timedout (a b v : Z) :
  Translation.posix v <> thrd_timedout /\
  Translation.posix_trylock a v <> thrd_timedout /\
  Translation.win32_wait a v <> thrd_timedout /\
  Translation.win32_trylock a b v <> thrd_timedout.
Proof.
  unfold Translation.posix, Translation.posix_trylock,
    Translation.win32_wait, Translation.win32_trylock.
  repeat split; repeat (match goal with |- context [if ?c then _ else _] =>
                                          destruct c end); discriminate.
Qed.

Lemma fmap_never_timedout {A : Type} (f : A -> Z) (o : option A) :
  (forall a, f a <> thrd_timedout) -> f <$> o <> Some thrd_timedout.
Proof.
  intros Hf. destruct o as [a|]; simpl; [|discriminate].
  intros [= E]. exact (Hf a E).
Qed.

(** The branches of the code, status by status: the result of
    [mtx_trylock], [mtx_lock] and [thrd_join] is a function of the status
    of the one native call they make.  Native success gives [thrd_success].  In [mtx_trylock] the
    native "held" status (EBUSY, resp. WAIT_TIMEOUT) gives [thrd_busy].
    Every other status gives [thrd_error], a WAIT_TIMEOUT in [mtx_lock]
    and [thrd_join] included.  When the native call does not return,
    neither does the wrapper.  None of them returns [thrd_timedout]. *)
Theorem result_translation
    (mutex thr res : Z) (ps : state PW) (ws : state WW) :
  result_code (Posix.mtx_trylock mutex ps) =
    Some (Translation.posix_trylock Posix.EBUSY
            (fst (Posix.pthread_mutex_trylock mutex (world ps)))) /\
  result_code (Posix.mtx_lock mutex ps) =
    (Translation.posix ∘ fst <$> Posix.pthread_mutex_lock mutex (world ps)) /\
  result_code (Posix.thrd_join thr res ps) =
    (Translation.posix ∘ fst ∘ fst <$> Posix.pthread_join thr (world ps)) /\
  result_code (Win32.mtx_trylock mutex ws) =
    (Translation.win32_trylock Win32.WAIT_OBJECT_0 Win32.WAIT_TIMEOUT ∘ fst <$>
       Win32.WaitForSingleObject (default 0 (heap ws !! mutex))
         Win32.INFINITE (world ws)) /\
  result_code (Win32.mtx_lock mutex ws) =
    (Translation.win32_wait Win32.WAIT_OBJECT_0 ∘ fst <$>
       Win32.WaitForSingleObject (default 0 (heap ws !! mutex))
         Win32.INFINITE (world ws)) /\
  result_code (Win32.thrd_join thr res ws) =
    (Translation.win32_wait Win32.WAIT_OBJECT_0 ∘ fst <$>
       Win32.WaitForSingleObject thr Win32.INFINITE (world ws)) /\
  Forall (fun code => code <> Some thrd_timedout)
    [ result_code (Posix.mtx_trylock mutex ps);
      result_code (Posix.mtx_lock mutex ps);
      result_code (Posix.thrd_join thr res ps);
      result_code (Win32.mtx_trylock mutex ws);
      result_code (Win32.mtx_lock mutex ws);
      result_code (Win32.thrd_join thr res ws) ].
Proof.
  rewrite posix_mtx_trylock_code, posix_mtx_lock_code, posix_thrd_join_code,
    win32_mtx_trylock_code, win32_mtx_lock_code, win32_thrd_join_code.
  repeat (split; [reflexivity|]).
  pose proof translation_never_timedout as T.
  repeat apply Forall_cons_2; try apply Forall_nil_2.
  - intros [= E]. revert E. apply (T Posix.EBUSY 0).
  - apply fmap_never_timedout. intros a. apply (T 0 0).
  - apply fmap_never_timedout. intros a. apply (T 0 0).
  - apply fmap_never_timedout. intros a.
    apply (T Win32.WAIT_OBJECT_0 Win32.WAIT_TIMEOUT).
  - apply fmap_never_timedout. intros a. apply (T Win32.WAIT_OBJECT_0 0).
  - apply fmap_never_timedout. intros a. apply (T Win32.WAIT_OBJECT_0 0).
Qed.


End ResultTranslation.


(** There the rule yields [thrd_busy] for the POSIX try-lock, and
    [thrd_success] and [thrd_error] for the two Win32 waits. *)
Example result_translation_on_kernels :
  result_code (Posix.mtx_trylock 200 Scenario.posix_held_by_other)
  = Some thrd_busy /\
  result_code
    (Win32.mtx_lock 200
       (State 0 (<[200 := 4]> Scenario.memory)
          (snd (Win32Kernel.create_mutex false (Win32Kernel.boot 8)))))
  = Some thrd_success /\
  result_code
    (Win32.thrd_join 77 100
       (State 0 (<[200 := 4]> Scenario.memory)
          (snd (Win32Kernel.create_mutex false (Win32Kernel.boot 8)))))
  = Some thrd_error.
Proof. repeat split; vm_compute; reflexivity. Qed.

(** ** Try-lock *)

Section TryLock.
Context {PW : Type} `{Posix.Native PW} {WW : Type} `{Win32.Native WW}.

(** The POSIX [mtx_trylock] always returns. *)
Lemma posix_mtx_trylock_returns (mutex : Z) (s : state PW) :
  exists rc s', Posix.mtx_trylock mutex s = Returns rc s'.
Proof.
  pose proof (posix_mtx_trylock_code mutex s) as E.
  destruct (Posix.mtx_trylock mutex s) as [rc s'|]; [eauto | discriminate].
Qed.

(** The Win32 [mtx_trylock] returns exactly when a wait on the handle with
    an INFINITE interval does. *)
Lemma win32_mtx_trylock_blocks_iff (mutex : Z) (s : state WW) :
  Win32.mtx_trylock mutex s = Blocks <->
  Win32.WaitForSingleObject (default 0 (heap s !! mutex)) Win32.INFINITE (world s)
  = None.
Proof.
  pose proof (win32_mtx_trylock_code mutex s) as E.
  destruct (Win32.mtx_trylock mutex s) as [rc s'|],
           (Win32.WaitForSingleObject _ _ _) as [p|];
    simpl in E; split; intros; congruence.
Qed.

(** C1 (the code breaks it on Win32): the Win32 [mtx_trylock] waits for
    the mutex with an INFINITE interval.  In a state where such a wait
    does not end, because another thread holds the mutex, the call does
    not return; it does not answer [thrd_busy]. *)
Theorem win32_mtx_trylock_blocks (mutex : Z) (s : state WW) :
  Win32.WaitForSingleObject (default 0 (heap s !! mutex)) Win32.INFINITE (world s)
  = None ->
  Win32.mtx_trylock mutex s = Blocks /\
  result_code (Win32.mtx_trylock mutex s) <> Some thrd_busy.
Proof.
  intros Hw. apply win32_mtx_trylock_blocks_iff in Hw.
  rewrite Hw. split; [reflexivity | discriminate].
Qed.

End TryLock.

(** C1 on the reference kernel: thread 2 holds the mutex, thread 1 calls
    [mtx_trylock]. *)
Lemma win32_mtx_trylock_blocks_witness :
  Win32.mtx_trylock 200 Scenario.win32_held_by_other = Blocks /\
  result_code (Win32.mtx_trylock 200 Scenario.win32_held_by_other)
  <> Some thrd_busy.
Proof.
  apply (win32_mtx_trylock_blocks 200 Scenario.win32_held_by_other).
  vm_compute. reflexivity.
Defined.

(** In that state a wait with interval 0 would have answered WAIT_TIMEOUT
    at once, and on POSIX the same situation gives [thrd_busy]. *)
Example trylock_held_by_other :
  fst <$> Win32Kernel.wait_for_single_object 4 0
            (world Scenario.win32_held_by_other)
  = Some Win32Kernel.WAIT_TIMEOUT /\
  result_code (Posix.mtx_trylock 200 Scenario.posix_held_by_other)
  = Some thrd_busy /\
  errno <$> final_state (Posix.mtx_trylock 200 Scenario.posix_held_by_other)
  = Some PosixKernel.EBUSY.
Proof. repeat split; vm_compute; reflexivity. Qed.

(** ** Join *)

Section ThrdJoin.
Context {PW : Type} `{Posix.Native PW} {WW : Type} `{Win32.Native WW}.

(** The POSIX [thrd_join] never writes to the caller's memory: the exit
    pointer goes to the parameter, not through it. *)
Lemma posix_thrd_join_heap (thr res : Z) (s s' : state PW) (rc : Z) :
  Posix.thrd_join thr res s = Returns rc s' -> heap s' = heap s.
Proof.
  unfold Posix.thrd_join. run.
  destruct (Posix.pthread_join thr (world s)) as [[[v r] w]|];
    [|discriminate].
  simpl. destruct (v !=? 0); intros [= <- <-]; reflexivity.
Qed.

(** The Win32 [thrd_join] writes the wait status, and nothing else. *)
Lemma win32_thrd_join_heap (thr res : Z) (s s' : state WW) (rc : Z) :
  Win32.thrd_join thr res s = Returns rc s' ->
  exists status w,
    Win32.WaitForSingleObject thr Win32.INFINITE (world s) = Some (status, w) /\
    heap s' = if res !=? NULL then <[res := to_int status]> (heap s) else heap s.
Proof.
  unfold Win32.thrd_join, Win32.thrd_errno. run.
  destruct (Win32.WaitForSingleObject _ _ _) as [[st w]|]; [|discriminate].
  simpl. intros E. exists st, w. split; [reflexivity|].
  destruct (res !=? NULL); simpl in E;
    destruct (st !=? Win32.WAIT_OBJECT_0); simpl in E;
    try destruct (st =? Win32.WAIT_FAILED); simpl in E;
    injection E as <- <-; reflexivity.
Qed.

(** C10: on Win32, [thrd_join] with a non-null [res] stores the wait
    status, converted to [int], in [*res] in every call that returns;
    when the status is not WAIT_OBJECT_0 the call returns [thrd_error]
    and [*res] has been overwritten all the same. *)
Theorem win32_thrd_join_writes_status
    (thr res status : Z) (w : WW) (s : state WW) :
  res <> NULL ->
  Win32.WaitForSingleObject thr Win32.INFINITE (world s) = Some (status, w) ->
  exists rc s',
    Win32.thrd_join thr res s = Returns rc s' /\
    heap s' = <[res := to_int status]> (heap s) /\
    heap s' !! res = Some (to_int status) /\
    (status <> Win32.WAIT_OBJECT_0 -> rc = thrd_error) /\
    (status = Win32.WAIT_OBJECT_0 -> rc = thrd_success).
Proof.
  intros Hres Hw. unfold Win32.thrd_join, Win32.thrd_errno. run.
  rewrite Hw. apply Zneqb_true in Hres. rewrite Hres. simpl.
  destruct (status !=? Win32.WAIT_OBJECT_0) eqn:E; simpl.
  - apply Zneqb_true in E.
    destruct (status =? Win32.WAIT_FAILED); simpl; eexists _, _;
      (split; [reflexivity|]); simpl;
      (split; [reflexivity|]); (split; [apply lookup_insert_eq|]);
      split; [reflexivity | contradiction | reflexivity | contradiction].
  - apply Zneqb_false in E. eexists _, _.
    split; [reflexivity|]. simpl. split; [reflexivity|].
    split; [apply lookup_insert_eq|]. split; [contradiction | reflexivity].
Qed.

End ThrdJoin.

(** C10 on the reference kernel: joining through a handle that names no
    thread fails with WAIT_FAILED, and [*res] becomes -1. *)
Lemma win32_thrd_join_writes_status_witness :
  exists rc s',
    Win32.thrd_join 77 100 (Scenario.win32_start 8) = Returns rc s' /\
    heap s' = <[100 := to_int Win32Kernel.WAIT_FAILED]>
                (heap (Scenario.win32_start 8)) /\
    heap s' !! 100 = Some (to_int Win32Kernel.WAIT_FAILED) /\
    (Win32Kernel.WAIT_FAILED <> Win32.WAIT_OBJECT_0 -> rc = thrd_error) /\
    (Win32Kernel.WAIT_FAILED = Win32.WAIT_OBJECT_0 -> rc = thrd_success).
Proof.
  apply (win32_thrd_join_writes_status 77 100 Win32Kernel.WAIT_FAILED
           (Win32Kernel.set_last_error (Win32Kernel.boot 8)
              Win32Kernel.ERROR_INVALID_HANDLE)
           (Scenario.win32_start 8)).
  - vm_compute. discriminate.
  - vm_compute. reflexivity.
Defined.

(** C2 (the code breaks it): a thread is created on the reference kernels
    with a start function that returns 42 and runs to its end; the
    caller's [int] at address 100 holds 7.  [thrd_join] then returns
    [thrd_success] on both branches, but the cell does not receive 42: on
    POSIX it still holds 7, on Win32 it holds the wait status 0. *)
Theorem thrd_join_loses_exit_code (arg : Z) :
  result_code
    (Scenario.posix_create_join 50 (fun _ => 42) arg 100 (Scenario.posix_start 8))
  = Some thrd_success /\
  (fun s => heap s !! 100) <$> final_state
    (Scenario.posix_create_join 50 (fun _ => 42) arg 100 (Scenario.posix_start 8))
  = Some (Some 7) /\
  result_code
    (Scenario.win32_create_join 50 (fun _ => 42) arg 100 (Scenario.win32_start 8))
  = Some thrd_success /\
  (fun s => heap s !! 100) <$> final_state
    (Scenario.win32_create_join 50 (fun _ => 42) arg 100 (Scenario.win32_start 8))
  = Some (Some 0).
Proof. repeat split; vm_compute; reflexivity. Qed.

(** The exit values were there to be had: before the join the kernels
    hold 42 for the thread, and the POSIX join primitive hands it out. *)
Example exit_code_available :
  (fst <$> PosixKernel.join 2
     (PosixKernel.finish 2
        (snd (PosixKernel.create (fun _ => 42) 0 (PosixKernel.boot 8)))))
  = Some (0, Some 42) /\
  Win32Kernel.objects
    (Win32Kernel.finish 4
       (snd (Win32Kernel.create_thread (fun _ => 42) 0 (Win32Kernel.boot 8))))
    !! 4
  = Some (Win32Kernel.ThreadObject 2 (Terminated 42)).
Proof. split; vm_compute; reflexivity. Qed.

(** ** Thread identity *)

Section ThrdEqual.
Context {PW : Type} `{Posix.Native PW} {WW : Type} `{Win32.Native WW}.

(** POSIX compares the two identifiers. *)
Lemma posix_thrd_equal_spec (lhs rhs : Z) (s : state PW) :
  Posix.thrd_equal lhs rhs s = Returns (if decide (lhs = rhs) then 1 else 0) s.
Proof.
  unfold Posix.thrd_equal, ret. f_equal.
  destruct (decide (lhs = rhs)) as [->|Hn].
  - rewrite Z.eqb_refl. reflexivity.
  - apply Z.eqb_neq in Hn. rewrite Hn. reflexivity.
Qed.

(** Win32 with both lookups successful compares the two thread ids. *)
Lemma win32_thrd_equal_found (lhs rhs : Z) (s : state WW) :
  fst (Win32.GetThreadId lhs (world s)) <> 0 ->
  fst (Win32.GetThreadId rhs (snd (Win32.GetThreadId lhs (world s)))) <> 0 ->
  result_code (Win32.thrd_equal lhs rhs s) =
  Some (Z.b2z (fst (Win32.GetThreadId lhs (world s)) =?
               fst (Win32.GetThreadId rhs (snd (Win32.GetThreadId lhs (world s)))))).
Proof.
  unfold Win32.thrd_equal, Win32.thrd_errno. run.
  destruct (Win32.GetThreadId lhs (world s)) as [l w]; simpl.
  intros Hl. apply Z.eqb_neq in Hl. rewrite Hl. simpl.
  destruct (Win32.GetThreadId rhs w) as [r w']; simpl.
  intros Hr. apply Z.eqb_neq in Hr. rewrite Hr. reflexivity.
Qed.

(** C8 (the code breaks it): when the lookup of the first handle fails,
    the Win32 [thrd_equal] records the native error in [errno], as
    claimed, but it returns [thrd_error], which is 4: a non-zero value,
    the answer that stands for "the same thread". *)
Theorem win32_thrd_equal_failed_lookup (lhs rhs : Z) (s : state WW) :
  fst (Win32.GetThreadId lhs (world s)) = 0 ->
  exists rc s',
    Win32.thrd_equal lhs rhs s = Returns rc s' /\
    errno s' = to_int (Win32.GetLastError (world s')) /\
    rc = thrd_error /\ rc <> 0.
Proof.
  unfold Win32.thrd_equal, Win32.thrd_errno. run.
  destruct (Win32.GetThreadId lhs (world s)) as [l w]; simpl.
  intros ->. simpl. eexists _, _. split; [reflexivity|].
  simpl. repeat split. discriminate.
Qed.

(** The same when the lookup of the second handle fails. *)
Lemma win32_thrd_equal_failed_lookup_rhs (lhs rhs : Z) (s : state WW) :
  fst (Win32.GetThreadId lhs (world s)) <> 0 ->
  fst (Win32.GetThreadId rhs (snd (Win32.GetThreadId lhs (world s)))) = 0 ->
  exists s',
    Win32.thrd_equal lhs rhs s = Returns thrd_error s' /\
    errno s' = to_int (Win32.GetLastError (world s')).
Proof.
  unfold Win32.thrd_equal, Win32.thrd_errno. run.
  destruct (Win32.GetThreadId lhs (world s)) as [l w]; simpl.
  intros Hl. apply Z.eqb_neq in Hl. rewrite Hl. simpl.
  destruct (Win32.GetThreadId rhs w) as [r w']; simpl.
  intros ->. simpl. eexists. split; reflexivity.
Qed.

(** C9: [thrd_equal(thrd_current(), thrd_current())] is non-zero on both
    branches.  On POSIX it is 1.  On Win32 it is non-zero provided a
    second lookup of the current thread's handle yields the identifier
    the first one gave. *)
Theorem thrd_equal_current (ps : state PW) (ws : state WW) :
  fst (Win32.GetThreadId (Win32.GetCurrentThread (world ws))
         (snd (Win32.GetThreadId (Win32.GetCurrentThread (world ws)) (world ws))))
  = fst (Win32.GetThreadId (Win32.GetCurrentThread (world ws)) (world ws)) ->
  result_code (Scenario.posix_equal_current ps) = Some 1 /\
  exists rc, result_code (Scenario.win32_equal_current ws) = Some rc /\ rc <> 0.
Proof.
  intros Hstable. split.
  - unfold Scenario.posix_equal_current, Posix.thrd_current. run.
    rewrite posix_thrd_equal_spec. simpl.
    destruct (decide _); [reflexivity | contradiction].
  - unfold Scenario.win32_equal_current, Win32.thrd_current. run.
    set (h := Win32.GetCurrentThread (world ws)) in *.
    unfold Win32.thrd_equal, Win32.thrd_errno. run.
    destruct (Win32.GetThreadId h (world ws)) as [l w] eqn:El; simpl in *.
    destruct (l =? 0) eqn:E0; simpl.
    { exists thrd_error. split; [reflexivity | discriminate]. }
    destruct (Win32.GetThreadId h w) as [r w'] eqn:Er; simpl in *.
    subst r. rewrite E0. simpl. rewrite Z.eqb_refl.
    exists 1. split; [reflexivity | discriminate].
Qed.

End ThrdEqual.

(** C8 on the reference kernel: 77 is no handle of the system, the other
    argument is the calling thread. *)
Lemma win32_thrd_equal_failed_lookup_witness :
  exists rc s',
    Win32.thrd_equal 77 Win32Kernel.current_thread (Scenario.win32_start 8)
    = Returns rc s' /\
    errno s' = to_int (Win32.GetLastError (world s')) /\
    rc = thrd_error /\ rc <> 0.
Proof.
  apply (win32_thrd_equal_failed_lookup 77 Win32Kernel.current_thread
           (Scenario.win32_start 8)).
  vm_compute. reflexivity.
Defined.

(** C9 on the two reference kernels. *)
Lemma thrd_equal_current_witness :
  result_code (Scenario.posix_equal_current (Scenario.posix_start 8)) = Some 1 /\
  exists rc,
    result_code (Scenario.win32_equal_current (Scenario.win32_start 8)) = Some rc /\
    rc <> 0.
Proof.
  apply (thrd_equal_current (Scenario.posix_start 8) (Scenario.win32_start 8)).
  vm_compute. reflexivity.
Defined.

(** There the Win32 answer is 1 as well, and the errno left by the failed
    lookup of handle 77 is ERROR_INVALID_HANDLE. *)
Example thrd_equal_on_kernel :
  result_code (Scenario.win32_equal_current (Scenario.win32_start 8)) = Some 1 /\
  errno <$> final_state
    (Win32.thrd_equal 77 Win32Kernel.current_thread (Scenario.win32_start 8))
  = Some Win32Kernel.ERROR_INVALID_HANDLE.
Proof. split; vm_compute; reflexivity. Qed.

(** ** The diagnostic slot

    Apart from the early return of the Win32 [mtx_init], every return of
    a failure code is preceded by a store to [errno]: of the native
    status on POSIX, of [GetLastError()] or the wait status on Win32. *)

Ltac failing_path :=
  intros;
  unfold bind, native, native_wait, query, set_errno, store, load, ret in *;
  repeat case_match; simplify_eq /=;
  repeat match goal with
         | E : ?c = _ |- context [if ?c then _ else _] => rewrite E
         end;
  try reflexivity; try contradiction; try discriminate.

Section PosixErrno.
Context {W : Type} `{Posix.Native W}.

Lemma posix_thrd_detach_errno (thr : Z) (s s' : state W) (rc : Z) :
  Posix.thrd_detach thr s = Returns rc s' -> rc <> thrd_success ->
  errno s' = to_int (fst (Posix.pthread_detach thr (world s))).
Proof. unfold Posix.thrd_detach. failing_path. Qed.

Lemma posix_thrd_join_errno (thr res : Z) (s s' : state W) (rc : Z) :
  Posix.thrd_join thr res s = Returns rc s' -> rc <> thrd_success ->
  Some (errno s') =
  to_int ∘ fst ∘ fst <$> Posix.pthread_join thr (world s).
Proof. unfold Posix.thrd_join. failing_path. Qed.

Lemma posix_mtx_init_errno (mutex type : Z) (s s' : state W) (rc : Z) :
  Posix.mtx_init mutex type s = Returns rc s' -> rc <> thrd_success ->
  errno s' =
  to_int (if type =? Z.lor mtx_plain mtx_recursive
          then fst (Posix.pthread_mutex_init mutex true (world s))
          else if type =? mtx_plain
               then fst (Posix.pthread_mutex_init mutex false (world s))
               else Posix.EINVAL).
Proof. unfold Posix.mtx_init. failing_path. Qed.

Lemma posix_mtx_lock_errno (mutex : Z) (s s' : state W) (rc : Z) :
  Posix.mtx_lock mutex s = Returns rc s' -> rc <> thrd_success ->
  Some (errno s') = to_int ∘ fst <$> Posix.pthread_mutex_lock mutex (world s).
Proof. unfold Posix.mtx_lock. failing_path. Qed.

Lemma posix_mtx_trylock_errno (mutex : Z) (s s' : state W) (rc : Z) :
  Posix.mtx_trylock mutex s = Returns rc s' -> rc <> thrd_success ->
  errno s' = to_int (fst (Posix.pthread_mutex_trylock mutex (world s))).
Proof. unfold Posix.mtx_trylock. failing_path. Qed.

Lemma posix_mtx_unlock_errno (mutex : Z) (s s' : state W) (rc : Z) :
  Posix.mtx_unlock mutex s = Returns rc s' -> rc <> thrd_success ->
  errno s' = to_int (fst (Posix.pthread_mutex_unlock mutex (world s))).
Proof. unfold Posix.mtx_unlock. failing_path. Qed.

End PosixErrno.

Section Win32Errno.
Context {W : Type} `{Win32.Native W}.

Lemma win32_thrd_detach_errno (thr : Z) (s s' : state W) (rc : Z) :
  Win32.thrd_detach thr s = Returns rc s' -> rc <> thrd_success ->
  errno s' = to_int (Win32.GetLastError (world s')).
Proof. unfold Win32.thrd_detach, Win32.thrd_errno. failing_path. Qed.

Lemma win32_thrd_join_errno (thr res : Z) (s s' : state W) (rc : Z) :
  Win32.thrd_join thr res s = Returns rc s' -> rc <> thrd_success ->
  Some (errno s') =
  (fun r => Translation.win32_wait_errno Win32.WAIT_FAILED (fst r)
              (Win32.GetLastError (snd r))) <$>
    Win32.WaitForSingleObject thr Win32.INFINITE (world s).
Proof.
  unfold Win32.thrd_join, Win32.thrd_errno, Translation.win32_wait_errno.
  failing_path.
Qed.

Lemma win32_mtx_lock_errno (mutex : Z) (s s' : state W) (rc : Z) :
  Win32.mtx_lock mutex s = Returns rc s' -> rc <> thrd_success ->
  Some (errno s') =
  (fun r => Translation.win32_wait_errno Win32.WAIT_FAILED (fst r)
              (Win32.GetLastError (snd r))) <$>
    Win32.WaitForSingleObject (default 0 (heap s !! mutex)) Win32.INFINITE (world s).
Proof.
  unfold Win32.mtx_lock, Win32.thrd_errno, Translation.win32_wait_errno.
  failing_path.
Qed.

Lemma win32_mtx_trylock_errno (mutex : Z) (s s' : state W) (rc : Z) :
  Win32.mtx_trylock mutex s = Returns rc s' -> rc <> thrd_success ->
  Some (errno s') =
  (fun r => Translation.win32_trylock_errno Win32.WAIT_TIMEOUT Win32.WAIT_FAILED
              (fst r)
              (Win32.GetLastError (snd r))) <$>
    Win32.WaitForSingleObject (default 0 (heap s !! mutex)) Win32.INFINITE (world s).
Proof.
  unfold Win32.mtx_trylock, Win32.thrd_errno, Translation.win32_trylock_errno.
  failing_path.
Qed.

Lemma win32_mtx_unlock_errno (mutex : Z) (s s' : state W) (rc : Z) :
  Win32.mtx_unlock mutex s = Returns rc s' -> rc <> thrd_success ->
  errno s' = to_int (Win32.GetLastError (world s')).
Proof. unfold Win32.mtx_unlock, Win32.thrd_errno. failing_path. Qed.

End Win32Errno.

(** At a concrete call, [mtx_init] with the unsupported kind
    [mtx_timed]:  POSIX leaves EINVAL in [errno]; Win32 leaves the 0 that
    was there. *)
Example mtx_init_timed_errno :
  errno <$> final_state (Posix.mtx_init 200 mtx_timed (Scenario.posix_start 8))
  = Some PosixKernel.EINVAL /\
  result_code (Win32.mtx_init 200 mtx_timed (Scenario.win32_start 8))
  = Some thrd_error /\
  errno <$> final_state (Win32.mtx_init 200 mtx_timed (Scenario.win32_start 8))
  = Some 0.
Proof. repeat split; vm_compute; reflexivity. Qed.

(** ** The round trip *)

(** POSIX: when the three native calls report success, so do the three
    wrappers, whatever [pthread_mutex_destroy] reports afterwards. *)
Lemma posix_round_trip_succeeds {W : Type} `{Posix.Native W}
    (mutex : Z) (s : state W) (w1 w2 w3 : W) :
  Posix.pthread_mutex_init mutex false (world s) = (0, w1) ->
  Posix.pthread_mutex_lock mutex w1 = Some (0, w2) ->
  Posix.pthread_mutex_unlock mutex w2 = (0, w3) ->
  result_code (Scenario.posix_round_trip mutex mtx_plain s)
  = Some (thrd_success, thrd_success, thrd_success).
Proof.
  intros Hi Hl Hu.
  unfold Scenario.posix_round_trip, Posix.mtx_init, Posix.mtx_lock,
    Posix.mtx_unlock, Posix.mtx_destroy.
  run. simpl. rewrite Hi. simpl. rewrite Hl. simpl. rewrite Hu. simpl.
  destruct (Posix.pthread_mutex_destroy mutex w3) as [v w4]. simpl.
  destruct (v !=? 0); reflexivity.
Qed.

(** On the POSIX reference kernel init, lock, unlock, destroy of a plain
    mutex succeed and leave no mutex behind; likewise for a recursive
    one.  On Win32 the three result codes are all [thrd_error]. *)
Example round_trip_on_kernels :
  result_code (Scenario.posix_round_trip 200 mtx_plain (Scenario.posix_start 8))
  = Some (thrd_success, thrd_success, thrd_success) /\
  (fun s => PosixKernel.mutexes (world s)) <$>
    final_state (Scenario.posix_round_trip 200 mtx_plain (Scenario.posix_start 8))
  = Some ∅ /\
  result_code
    (Scenario.posix_round_trip 200 (Z.lor mtx_plain mtx_recursive)
       (Scenario.posix_start 8))
  = Some (thrd_success, thrd_success, thrd_success) /\
  result_code (Scenario.win32_round_trip 200 mtx_plain (Scenario.win32_start 8))
  = Some (thrd_error, thrd_error, thrd_error).
Proof. repeat split; vm_compute; reflexivity. Qed.

(** * The library as a whole

    Properties that hold of every wrapper, for every behaviour of the
    native primitives. *)

(** Taking a wrapper apart into the paths through it. *)
Ltac paths :=
  unfold bind, native, native_wait, query, set_errno, store, load, ret in *;
  cbn [result_code final_state errno heap world fst snd] in *;
  repeat (case_match; simplify_eq /=; try rewrite lookup_insert_eq in *;
          cbn [result_code final_state errno heap world fst snd default] in *);
  simplify_eq /=.

Section Library.
Context {PW : Type} `{Posix.Native PW} {WW : Type} `{Win32.Native WW}.

(** X1: [errno] is never cleared.  A call of any result-code wrapper, on
    either branch, that returns [thrd_success] leaves [errno] holding
    what it held before the call. *)
Theorem success_leaves_errno
    (thr : Z) (func : Z -> Z) (arg res mutex type : Z)
    (ps : state PW) (ws : state WW) :
  Forall (Observe.keeps_errno_on_success ps)
    [ Posix.thrd_create thr func arg; Posix.thrd_detach thr;
      Posix.thrd_join thr res; Posix.mtx_init mutex type;
      Posix.mtx_lock mutex; Posix.mtx_trylock mutex; Posix.mtx_unlock mutex ] /\
  Forall (Observe.keeps_errno_on_success ws)
    [ Win32.thrd_create thr func arg; Win32.thrd_detach thr;
      Win32.thrd_join thr res; Win32.mtx_init mutex type;
      Win32.mtx_lock mutex; Win32.mtx_trylock mutex; Win32.mtx_unlock mutex ].
Proof.
  split; repeat apply Forall_cons_2; try apply Forall_nil_2;
    unfold Observe.keeps_errno_on_success; intros s' E.
  - unfold Posix.thrd_create in E. paths; reflexivity.
  - unfold Posix.thrd_detach in E. paths; reflexivity.
  - unfold Posix.thrd_join in E. paths; reflexivity.
  - unfold Posix.mtx_init in E. paths; reflexivity.
  - unfold Posix.mtx_lock in E. paths; reflexivity.
  - unfold Posix.mtx_trylock in E. paths; reflexivity.
  - unfold Posix.mtx_unlock in E. paths; reflexivity.
  - unfold Win32.thrd_create, Win32.thrd_errno in E. paths; reflexivity.
  - unfold Win32.thrd_detach, Win32.thrd_errno in E. paths; reflexivity.
  - unfold Win32.thrd_join, Win32.thrd_errno in E. paths; reflexivity.
  - rewrite win32_mtx_init_rejects in E. discriminate.
  - unfold Win32.mtx_lock, Win32.thrd_errno in E. paths; reflexivity.
  - unfold Win32.mtx_trylock, Win32.thrd_errno in E. paths; reflexivity.
  - unfold Win32.mtx_unlock, Win32.thrd_errno in E. paths; reflexivity.
Qed.

(** X2: apart from [mtx_trylock], which can also answer [thrd_busy], a
    result-code wrapper that returns has returned [thrd_success] or
    [thrd_error]; [thrd_nomem] and [thrd_timedout] are returned by no
    function of the library, and [thrd_busy] by [mtx_trylock] only. *)
Theorem only_success_or_error
    (thr : Z) (func : Z -> Z) (arg res mutex type : Z)
    (ps : state PW) (ws : state WW) :
  Forall Observe.success_or_error
    [ result_code (Posix.thrd_create thr func arg ps);
      result_code (Posix.thrd_detach thr ps);
      result_code (Posix.thrd_join thr res ps);
      result_code (Posix.mtx_init mutex type ps);
      result_code (Posix.mtx_lock mutex ps);
      result_code (Posix.mtx_unlock mutex ps);
      result_code (Win32.thrd_create thr func arg ws);
      result_code (Win32.thrd_detach thr ws);
      result_code (Win32.thrd_join thr res ws);
      result_code (Win32.mtx_init mutex type ws);
      result_code (Win32.mtx_lock mutex ws);
      result_code (Win32.mtx_unlock mutex ws) ] /\
  Forall (fun code => Observe.success_or_error code \/ code = Some thrd_busy)
    [ result_code (Posix.mtx_trylock mutex ps);
      result_code (Win32.mtx_trylock mutex ws) ].
Proof.
  split; repeat apply Forall_cons_2; try apply Forall_nil_2;
    unfold Observe.success_or_error.
  - unfold Posix.thrd_create. paths; auto.
  - unfold Posix.thrd_detach. paths; auto.
  - unfold Posix.thrd_join. paths; auto.
  - unfold Posix.mtx_init. paths; auto.
  - unfold Posix.mtx_lock. paths; auto.
  - unfold Posix.mtx_unlock. paths; auto.
  - unfold Win32.thrd_create, Win32.thrd_errno. paths; auto.
  - unfold Win32.thrd_detach, Win32.thrd_errno. paths; auto.
  - unfold Win32.thrd_join, Win32.thrd_errno. paths; auto.
  - rewrite win32_mtx_init_rejects. auto.
  - unfold Win32.mtx_lock, Win32.thrd_errno. paths; auto.
  - unfold Win32.mtx_unlock, Win32.thrd_errno. paths; auto.
  - unfold Posix.mtx_trylock. paths; auto.
  - unfold Win32.mtx_trylock, Win32.thrd_errno. paths; auto.
Qed.

(** X3: wrappers that leave the caller's memory alone.  On POSIX
    [thrd_detach], [thrd_equal], [thrd_join] and [thrd_yield], and on
    Win32 every wrapper but [thrd_create] and [thrd_join] with a non-null
    [res], return with the memory they were called with.  The POSIX mutex
    wrappers are not among them: they hand the caller's
    [pthread_mutex_t] to primitives that write it. *)
Theorem caller_memory_untouched
    (thr lhs rhs res mutex type : Z) (ps : state PW) (ws : state WW) :
  Forall (Observe.same_heap ps)
    [ final_state (Posix.thrd_detach thr ps);
      final_state (Posix.thrd_equal lhs rhs ps);
      final_state (Posix.thrd_join thr res ps);
      final_state (Posix.thrd_yield ps) ] /\
  Forall (Observe.same_heap ws)
    [ final_state (Win32.thrd_detach thr ws);
      final_state (Win32.thrd_equal lhs rhs ws);
      final_state (Win32.thrd_join thr NULL ws);
      final_state (Win32.thrd_yield ws);
      final_state (Win32.mtx_init mutex type ws);
      final_state (Win32.mtx_lock mutex ws);
      final_state (Win32.mtx_trylock mutex ws);
      final_state (Win32.mtx_unlock mutex ws);
      final_state (Win32.mtx_destroy mutex ws) ].
Proof.
  split; repeat apply Forall_cons_2; try apply Forall_nil_2;
    unfold Observe.same_heap; intros s' E.
  - unfold Posix.thrd_detach in E. paths; reflexivity.
  - unfold Posix.thrd_equal in E. paths; reflexivity.
  - unfold Posix.thrd_join in E. paths; reflexivity.
  - unfold Posix.thrd_yield in E. paths; reflexivity.
  - unfold Win32.thrd_detach, Win32.thrd_errno in E. paths; reflexivity.
  - unfold Win32.thrd_equal, Win32.thrd_errno in E. paths; reflexivity.
  - unfold Win32.thrd_join, Win32.thrd_errno in E. paths; reflexivity.
  - unfold Win32.thrd_yield in E. paths; reflexivity.
  - rewrite win32_mtx_init_rejects in E. simpl in E. congruence.
  - unfold Win32.mtx_lock, Win32.thrd_errno in E. paths; reflexivity.
  - unfold Win32.mtx_trylock, Win32.thrd_errno in E. paths; reflexivity.
  - unfold Win32.mtx_unlock, Win32.thrd_errno in E. paths; reflexivity.
  - unfold Win32.mtx_destroy, Win32.thrd_errno in E. paths; reflexivity.
Qed.

End Library.

(** ** The functions without a wait *)

Section Plain.
Context {PW : Type} `{Posix.Native PW} {WW : Type} `{Win32.Native WW}.

(** X4: [thrd_detach] and [mtx_unlock] always return.  Their result is
    [thrd_success] exactly when the native call reports success (status
    0 on POSIX, a non-zero BOOL on Win32), and [thrd_error] otherwise; on
    failure [errno] receives the native status, resp. [GetLastError()], and
    on success it is left alone.  The Win32 [mtx_unlock] releases the
    handle it reads from [*mutex]. *)
Theorem detach_unlock_report
    (thr mutex : Z) (ps : state PW) (ws : state WW) :
  (result_code (Posix.thrd_detach thr ps),
   errno <$> final_state (Posix.thrd_detach thr ps)) =
    (let v := fst (Posix.pthread_detach thr (world ps)) in
     (Some (if v =? 0 then thrd_success else thrd_error),
      Some (if v =? 0 then errno ps else to_int v))) /\
  (result_code (Posix.mtx_unlock mutex ps),
   errno <$> final_state (Posix.mtx_unlock mutex ps)) =
    (let v := fst (Posix.pthread_mutex_unlock mutex (world ps)) in
     (Some (if v =? 0 then thrd_success else thrd_error),
      Some (if v =? 0 then errno ps else to_int v))) /\
  (result_code (Win32.thrd_detach thr ws),
   errno <$> final_state (Win32.thrd_detach thr ws)) =
    (let r := Win32.CloseHandle thr (world ws) in
     (Some (if fst r =? 0 then thrd_error else thrd_success),
      Some (if fst r =? 0 then to_int (Win32.GetLastError (snd r))
            else errno ws))) /\
  (result_code (Win32.mtx_unlock mutex ws),
   errno <$> final_state (Win32.mtx_unlock mutex ws)) =
    (let r := Win32.ReleaseMutex (default 0 (heap ws !! mutex)) (world ws) in
     (Some (if fst r =? 0 then thrd_error else thrd_success),
      Some (if fst r =? 0 then to_int (Win32.GetLastError (snd r))
            else errno ws))).
Proof.
  repeat split.
  - unfold Posix.thrd_detach, Zneqb. paths; reflexivity.
  - unfold Posix.mtx_unlock, Zneqb. paths; reflexivity.
  - unfold Win32.thrd_detach, Win32.thrd_errno. paths; reflexivity.
  - unfold Win32.mtx_unlock, Win32.thrd_errno. paths; reflexivity.
Qed.

(** X5: the two functions without a result, [thrd_yield] and
    [mtx_destroy], always return, and a failure shows in [errno] only.
    On POSIX a non-zero status of the native call is stored in [errno];
    the Win32 [mtx_destroy] stores [GetLastError()] when [CloseHandle]
    fails; the Win32 [thrd_yield] ignores what [SwitchToThread] returns
    and leaves [errno] as it was. *)
Theorem void_calls_report (mutex : Z) (ps : state PW) (ws : state WW) :
  errno <$> final_state (Posix.thrd_yield ps) =
    Some (let v := fst (Posix.pthread_yield (world ps)) in
          if v =? 0 then errno ps else to_int v) /\
  errno <$> final_state (Posix.mtx_destroy mutex ps) =
    Some (let v := fst (Posix.pthread_mutex_destroy mutex (world ps)) in
          if v =? 0 then errno ps else to_int v) /\
  errno <$> final_state (Win32.mtx_destroy mutex ws) =
    Some (let r := Win32.CloseHandle (default 0 (heap ws !! mutex)) (world ws) in
          if fst r =? 0 then to_int (Win32.GetLastError (snd r)) else errno ws) /\
  errno <$> final_state (Win32.thrd_yield ws) = Some (errno ws).
Proof.
  repeat split.
  - unfold Posix.thrd_yield, Zneqb. paths; reflexivity.
  - unfold Posix.mtx_destroy, Zneqb. paths; reflexivity.
  - unfold Win32.mtx_destroy, Win32.thrd_errno. paths; reflexivity.
  - unfold Win32.thrd_yield. paths; reflexivity.
Qed.

(** X6: [thrd_create] writes to the caller's memory at [thr] and nowhere
    else.  On Win32 the cell is overwritten in every call, with the
    handle [CreateThread] returned, and the result is [thrd_error]
    exactly when that handle is null.  On POSIX the cell holds what
    [pthread_create] stored through [thr], and its old content when the
    primitive stored nothing. *)
Theorem thrd_create_out_cell
    (thr : Z) (func : Z -> Z) (arg : Z) (ps : state PW) (ws : state WW) :
  Observe.same_heap_but thr ps (final_state (Posix.thrd_create thr func arg ps)) /\
  Observe.same_heap_but thr ws (final_state (Win32.thrd_create thr func arg ws)) /\
  (fun s' => heap s' !! thr) <$> final_state (Posix.thrd_create thr func arg ps) =
    Some (match snd (fst (Posix.pthread_create func arg (world ps))) with
          | Some t => Some t
          | None => heap ps !! thr
          end) /\
  (fun s' => heap s' !! thr) <$> final_state (Win32.thrd_create thr func arg ws) =
    Some (Some (fst (Win32.CreateThread func arg (world ws)))) /\
  (result_code (Win32.thrd_create thr func arg ws) = Some thrd_error <->
   fst (Win32.CreateThread func arg (world ws)) = NULL).
Proof.
  split; [|split; [|split; [|split]]].
  - unfold Observe.same_heap_but. intros s' q E Hq.
    unfold Posix.thrd_create in E. paths;
      try (rewrite lookup_insert_ne by congruence); reflexivity.
  - unfold Observe.same_heap_but. intros s' q E Hq.
    unfold Win32.thrd_create, Win32.thrd_errno in E. paths;
      rewrite lookup_insert_ne by congruence; reflexivity.
  - unfold Posix.thrd_create. paths; reflexivity.
  - unfold Win32.thrd_create, Win32.thrd_errno. paths; reflexivity.
  - rewrite win32_thrd_create_code.
    destruct (fst (Win32.CreateThread func arg (world ws)) =? NULL) eqn:E.
    + apply Z.eqb_eq in E. split; [intros _; exact E | reflexivity].
    + apply Z.eqb_neq in E. split; [discriminate | contradiction].
Qed.

(** X7: what [thrd_equal] answers.  On POSIX it is 1 when the two
    identifiers are equal and 0 when they differ.  On Win32 it is 0
    exactly when both handles resolve to thread identifiers and these
    differ, 1 exactly when both resolve to the same identifier, and
    [thrd_error] exactly when one of the two look-ups fails. *)
Theorem thrd_equal_answers (lhs rhs : Z) (ps : state PW) (ws : state WW) :
  (result_code (Posix.thrd_equal lhs rhs ps) = Some 1 <-> lhs = rhs) /\
  (result_code (Posix.thrd_equal lhs rhs ps) = Some 0 <-> lhs <> rhs) /\
  (result_code (Win32.thrd_equal lhs rhs ws) = Some 0 <->
     fst (Win32.GetThreadId lhs (world ws)) <> 0 /\
     fst (Win32.GetThreadId rhs (snd (Win32.GetThreadId lhs (world ws)))) <> 0 /\
     fst (Win32.GetThreadId lhs (world ws)) <>
     fst (Win32.GetThreadId rhs (snd (Win32.GetThreadId lhs (world ws))))) /\
  (result_code (Win32.thrd_equal lhs rhs ws) = Some 1 <->
     fst (Win32.GetThreadId lhs (world ws)) <> 0 /\
     fst (Win32.GetThreadId rhs (snd (Win32.GetThreadId lhs (world ws)))) <> 0 /\
     fst (Win32.GetThreadId lhs (world ws)) =
     fst (Win32.GetThreadId rhs (snd (Win32.GetThreadId lhs (world ws))))) /\
  (result_code (Win32.thrd_equal lhs rhs ws) = Some thrd_error <->
     fst (Win32.GetThreadId lhs (world ws)) = 0 \/
     fst (Win32.GetThreadId rhs (snd (Win32.GetThreadId lhs (world ws)))) = 0).
Proof.
  rewrite posix_thrd_equal_spec. cbn [result_code].
  split; [|split].
  { destruct (decide (lhs = rhs)); split; try congruence; discriminate. }
  { destruct (decide (lhs = rhs)); split; try congruence; discriminate. }
  unfold Win32.thrd_equal, Win32.thrd_errno. run.
  destruct (Win32.GetThreadId lhs (world ws)) as [l w]. simpl.
  destruct (l =? 0) eqn:El; simpl.
  { apply Z.eqb_eq in El. subst l.
    repeat split; try discriminate; tauto. }
  apply Z.eqb_neq in El.
  destruct (Win32.GetThreadId rhs w) as [r w']. simpl.
  destruct (r =? 0) eqn:Er; simpl.
  { apply Z.eqb_eq in Er. subst r.
    repeat split; try discriminate; tauto. }
  apply Z.eqb_neq in Er.
  destruct (l =? r) eqn:Elr; simpl;
    [apply Z.eqb_eq in Elr | apply Z.eqb_neq in Elr];
    repeat split; try discriminate; try tauto; try congruence;
    intros [?|?]; contradiction.
Qed.

End Plain.

(** * Mutexes on the POSIX reference kernel

    The wrappers called in sequence on the reference kernel, from any
    state of it and for any mutex address. *)

Section PosixMutex.
Implicit Types (e t m : Z) (s : state PosixKernel.kernel).

Lemma calls_cons {W : Type} (c : M W Z) (cs : list (M W Z)) (s : state W) :
  calls (c :: cs) s =
  match c s with
  | Returns a s' =>
      match calls cs s' with
      | Returns r s'' => Returns (a :: r) s''
      | Blocks => Blocks
      end
  | Blocks => Blocks
  end.
Proof.
  cbn [calls]. unfold bind, ret. destruct (c s) as [a s'|]; reflexivity.
Qed.

Lemma calls_nil {W : Type} (s : state W) : calls [] s = Returns [] s.
Proof. reflexivity. Qed.

Lemma as_thread_with {A : Type} e t t' m x s (c : M PosixKernel.kernel A) :
  as_thread t' c (posix_with e t m x s) = c (posix_with e t' m x s).
Proof. reflexivity. Qed.

Lemma posix_with_self e m x s :
  posix_with e (PosixKernel.self (world s)) m x s =
  State e (heap s)
    (PosixKernel.set_mutexes (world s) (<[m := x]> (PosixKernel.mutexes (world s)))).
Proof. reflexivity. Qed.

Lemma kernel_mtx_init m type s :
  type = mtx_plain \/ type = Z.lor mtx_plain mtx_recursive ->
  Posix.mtx_init m type s =
  Returns thrd_success
    (posix_with (errno s) (PosixKernel.self (world s)) m
       (PosixKernel.Mutex (type =? 1) None) s).
Proof. intros [-> | ->]; reflexivity. Qed.

Lemma kernel_mtx_init_with m type e t x s :
  type = mtx_plain \/ type = Z.lor mtx_plain mtx_recursive ->
  Posix.mtx_init m type (posix_with e t m x s) =
  Returns thrd_success (posix_with e t m (PosixKernel.Mutex (type =? 1) None) s).
Proof.
  intros [-> | ->]; unfold Posix.mtx_init, posix_with; run; simpl;
    unfold PosixKernel.mutex_init, PosixKernel.set_mutexes; simpl;
    rewrite insert_insert_eq; reflexivity.
Qed.

(** The acquisition attempt of thread [t] on the mutex in state [x]. *)
Lemma kernel_acquire e t m x s :
  PosixKernel.acquire m (world (posix_with e t m x s)) =
  match x with
  | PosixKernel.Mutex rec None =>
      PosixKernel.Acquired
        (world (posix_with e t m (PosixKernel.Mutex rec (Some (t, 1%nat))) s))
  | PosixKernel.Mutex rec (Some (t', n)) =>
      if (t' =? t) && rec
      then PosixKernel.Acquired
             (world (posix_with e t m (PosixKernel.Mutex rec (Some (t', S n))) s))
      else PosixKernel.Held
  end.
Proof.
  unfold PosixKernel.acquire, posix_with. cbn [world PosixKernel.mutexes].
  rewrite lookup_insert_eq.
  destruct x as [rec [[t' n]|]]; cbn [PosixKernel.self].
  - destruct ((t' =? t) && rec); [|reflexivity].
    unfold PosixKernel.set_mutexes. cbn. rewrite insert_insert_eq. reflexivity.
  - unfold PosixKernel.set_mutexes. cbn. rewrite insert_insert_eq. reflexivity.
Qed.

Lemma kernel_mtx_lock e t m x s :
  Posix.mtx_lock m (posix_with e t m x s) =
  match PosixKernel.acquire m (world (posix_with e t m x s)) with
  | PosixKernel.Acquired k => Returns thrd_success (State e (heap s) k)
  | PosixKernel.Held => Blocks
  | PosixKernel.Invalid =>
      Returns thrd_error
        (State (to_int PosixKernel.EINVAL) (heap s) (world (posix_with e t m x s)))
  end.
Proof.
  unfold Posix.mtx_lock. run. cbn [Posix.pthread_mutex_lock PosixKernel.api].
  unfold PosixKernel.mutex_lock.
  destruct (PosixKernel.acquire m _); reflexivity.
Qed.

Lemma kernel_mtx_trylock e t m x s :
  Posix.mtx_trylock m (posix_with e t m x s) =
  match PosixKernel.acquire m (world (posix_with e t m x s)) with
  | PosixKernel.Acquired k => Returns thrd_success (State e (heap s) k)
  | PosixKernel.Held =>
      Returns thrd_busy (posix_with (to_int PosixKernel.EBUSY) t m x s)
  | PosixKernel.Invalid =>
      Returns thrd_error
        (State (to_int PosixKernel.EINVAL) (heap s) (world (posix_with e t m x s)))
  end.
Proof.
  unfold Posix.mtx_trylock. run. cbn [Posix.pthread_mutex_trylock PosixKernel.api].
  unfold PosixKernel.mutex_trylock.
  destruct (PosixKernel.acquire m _); reflexivity.
Qed.

(** Releasing one level of a mutex the caller holds. *)
Lemma kernel_mtx_unlock e t m rec n s :
  Posix.mtx_unlock m
    (posix_with e t m (PosixKernel.Mutex rec (Some (t, S n))) s) =
  Returns thrd_success
    (posix_with e t m
       (PosixKernel.Mutex rec (match n with O => None | S _ => Some (t, n) end)) s).
Proof.
  unfold Posix.mtx_unlock. run. cbn [Posix.pthread_mutex_unlock PosixKernel.api].
  unfold PosixKernel.mutex_unlock, posix_with.
  cbn [world PosixKernel.mutexes PosixKernel.self].
  rewrite lookup_insert_eq, Z.eqb_refl.
  destruct n; unfold PosixKernel.set_mutexes; cbn;
    rewrite insert_insert_eq; reflexivity.
Qed.

Lemma kernel_mtx_destroy e t m rec s :
  Posix.mtx_destroy m (posix_with e t m (PosixKernel.Mutex rec None) s) =
  Returns tt
    (State e (heap s)
       (PosixKernel.Kernel t (PosixKernel.threads (world s))
          (delete m (PosixKernel.mutexes (world s)))
          (PosixKernel.next_id (world s)) (PosixKernel.free_slots (world s)))).
Proof.
  unfold Posix.mtx_destroy. run. cbn [Posix.pthread_mutex_destroy PosixKernel.api].
  unfold PosixKernel.mutex_destroy, posix_with.
  cbn [world PosixKernel.mutexes]. rewrite lookup_insert_eq.
  unfold PosixKernel.set_mutexes. cbn. rewrite delete_insert_eq. reflexivity.
Qed.

Lemma posix_holder_with e t m x s :
  posix_holder m (posix_with e t m x s) = Some (PosixKernel.holder x).
Proof.
  unfold posix_holder, posix_with. cbn [world PosixKernel.mutexes].
  rewrite lookup_insert_eq. reflexivity.
Qed.

End PosixMutex.

Lemma kernel_mtx_lock_with (e t m : Z) (x : PosixKernel.mutex)
    (s : state PosixKernel.kernel) :
  Posix.mtx_lock m (posix_with e t m x s) =
  match x with
  | PosixKernel.Mutex rec None =>
      Returns thrd_success
        (posix_with e t m (PosixKernel.Mutex rec (Some (t, 1%nat))) s)
  | PosixKernel.Mutex rec (Some (t', n)) =>
      if (t' =? t) && rec
      then Returns thrd_success
             (posix_with e t m (PosixKernel.Mutex rec (Some (t', S n))) s)
      else Blocks
  end.
Proof.
  rewrite kernel_mtx_lock, kernel_acquire.
  destruct x as [rec [[t' n]|]]; [|reflexivity].
  destruct ((t' =? t) && rec); reflexivity.
Qed.

Lemma kernel_mtx_trylock_with (e t m : Z) (x : PosixKernel.mutex)
    (s : state PosixKernel.kernel) :
  Posix.mtx_trylock m (posix_with e t m x s) =
  match x with
  | PosixKernel.Mutex rec None =>
      Returns thrd_success
        (posix_with e t m (PosixKernel.Mutex rec (Some (t, 1%nat))) s)
  | PosixKernel.Mutex rec (Some (t', n)) =>
      if (t' =? t) && rec
      then Returns thrd_success
             (posix_with e t m (PosixKernel.Mutex rec (Some (t', S n))) s)
      else Returns thrd_busy (posix_with (to_int PosixKernel.EBUSY) t m x s)
  end.
Proof.
  rewrite kernel_mtx_trylock, kernel_acquire.
  destruct x as [rec [[t' n]|]]; [|reflexivity].
  destruct ((t' =? t) && rec); reflexivity.
Qed.

Lemma kernel_mtx_init_as (t m type : Z) (s : state PosixKernel.kernel) :
  type = mtx_plain \/ type = Z.lor mtx_plain mtx_recursive ->
  as_thread t (Posix.mtx_init m type) s =
  Returns thrd_success
    (posix_with (errno s) t m (PosixKernel.Mutex (type =? 1) None) s).
Proof. intros [-> | ->]; reflexivity. Qed.

(** Running a sequence of mutex calls on the reference kernel. *)
Ltac kernel_run :=
  repeat first
    [ rewrite calls_cons
    | rewrite calls_nil
    | rewrite as_thread_with
    | rewrite kernel_mtx_init by auto
    | rewrite kernel_mtx_init_as by auto
    | rewrite kernel_mtx_lock_with
    | rewrite kernel_mtx_trylock_with
    | rewrite kernel_mtx_unlock
    | rewrite kernel_mtx_destroy
    | rewrite posix_holder_with
    | rewrite Z.eqb_refl
    | progress cbn [andb result_code final_state fmap option_fmap option_map
                    PosixKernel.holder Z.eqb Pos.eqb mtx_plain mtx_recursive Z.lor] ].

(** X8: the recursive mutex.  On the POSIX reference kernel, from any
    state and for any address [m], a mutex initialised with
    [mtx_plain | mtx_recursive] can be locked twice by the same thread;
    after one [mtx_unlock] that thread still holds it once, after the
    second nobody does; every call returns [thrd_success]. *)
Theorem posix_recursive_mutex (m : Z) (s : state PosixKernel.kernel) :
  result_code
    (calls [ Posix.mtx_init m (Z.lor mtx_plain mtx_recursive);
             Posix.mtx_lock m; Posix.mtx_lock m; Posix.mtx_unlock m ] s)
  = Some [thrd_success; thrd_success; thrd_success; thrd_success] /\
  posix_holder m <$> final_state
    (calls [ Posix.mtx_init m (Z.lor mtx_plain mtx_recursive);
             Posix.mtx_lock m; Posix.mtx_lock m; Posix.mtx_unlock m ] s)
  = Some (Some (Some (PosixKernel.self (world s), 1%nat))) /\
  result_code
    (calls [ Posix.mtx_init m (Z.lor mtx_plain mtx_recursive);
             Posix.mtx_lock m; Posix.mtx_lock m;
             Posix.mtx_unlock m; Posix.mtx_unlock m ] s)
  = Some [thrd_success; thrd_success; thrd_success; thrd_success; thrd_success] /\
  posix_holder m <$> final_state
    (calls [ Posix.mtx_init m (Z.lor mtx_plain mtx_recursive);
             Posix.mtx_lock m; Posix.mtx_lock m;
             Posix.mtx_unlock m; Posix.mtx_unlock m ] s)
  = Some (Some None).
Proof.
  repeat split; kernel_run; reflexivity.
Qed.

(** X9: the round trip leaks nothing.  On the POSIX reference kernel,
    from any state and for any address [m], [mtx_init] with a supported
    kind, [mtx_lock], [mtx_unlock], [mtx_destroy] return [thrd_success]
    three times, and afterwards no mutex is registered at [m], every
    other mutex and thread is as before, and [errno] has not changed. *)
Theorem posix_round_trip_no_leak (m type : Z) (s : state PosixKernel.kernel) :
  type = mtx_plain \/ type = Z.lor mtx_plain mtx_recursive ->
  exists s',
    Scenario.posix_round_trip m type s =
      Returns (thrd_success, thrd_success, thrd_success) s' /\
    PosixKernel.mutexes (world s') = delete m (PosixKernel.mutexes (world s)) /\
    PosixKernel.threads (world s') = PosixKernel.threads (world s) /\
    errno s' = errno s.
Proof.
  intros Hty. unfold Scenario.posix_round_trip, bind, ret.
  rewrite kernel_mtx_init by assumption.
  rewrite kernel_mtx_lock_with, kernel_mtx_unlock, kernel_mtx_destroy.
  eexists. split; [reflexivity|]. repeat split.
Qed.

Lemma posix_round_trip_no_leak_witness :
  exists s',
    Scenario.posix_round_trip 200 mtx_plain (Scenario.posix_start 8) =
      Returns (thrd_success, thrd_success, thrd_success) s' /\
    PosixKernel.mutexes (world s') =
      delete 200 (PosixKernel.mutexes (world (Scenario.posix_start 8))) /\
    PosixKernel.threads (world s') =
      PosixKernel.threads (world (Scenario.posix_start 8)) /\
    errno s' = errno (Scenario.posix_start 8).
Proof.
  apply (posix_round_trip_no_leak 200 mtx_plain (Scenario.posix_start 8)).
  left. reflexivity.
Defined.

(** X10: mutual exclusion between two threads.  On the POSIX reference
    kernel, once thread [t1] has locked a mutex of a supported kind,
    [mtx_trylock] by another thread [t2] returns [thrd_busy] and
    [mtx_lock] by [t2] does not return; after [t1] has unlocked,
    [mtx_trylock] by [t2] returns [thrd_success] and [t2] is the holder. *)
Theorem posix_mutual_exclusion
    (t1 t2 m type : Z) (s : state PosixKernel.kernel) :
  t1 <> t2 ->
  type = mtx_plain \/ type = Z.lor mtx_plain mtx_recursive ->
  result_code
    (calls [ as_thread t1 (Posix.mtx_init m type);
             as_thread t1 (Posix.mtx_lock m);
             as_thread t2 (Posix.mtx_trylock m);
             as_thread t1 (Posix.mtx_unlock m);
             as_thread t2 (Posix.mtx_trylock m) ] s)
  = Some [thrd_success; thrd_success; thrd_busy; thrd_success; thrd_success] /\
  posix_holder m <$> final_state
    (calls [ as_thread t1 (Posix.mtx_init m type);
             as_thread t1 (Posix.mtx_lock m);
             as_thread t2 (Posix.mtx_trylock m);
             as_thread t1 (Posix.mtx_unlock m);
             as_thread t2 (Posix.mtx_trylock m) ] s)
  = Some (Some (Some (t2, 1%nat))) /\
  calls [ as_thread t1 (Posix.mtx_init m type);
          as_thread t1 (Posix.mtx_lock m);
          as_thread t2 (Posix.mtx_lock m) ] s
  = Blocks.
Proof.
  intros Hne Hty. apply Z.eqb_neq in Hne.
  repeat split; repeat (kernel_run; rewrite ?Hne); reflexivity.
Qed.

Lemma posix_mutual_exclusion_witness :
  result_code
    (calls [ as_thread 1 (Posix.mtx_init 200 mtx_plain);
             as_thread 1 (Posix.mtx_lock 200);
             as_thread 2 (Posix.mtx_trylock 200);
             as_thread 1 (Posix.mtx_unlock 200);
             as_thread 2 (Posix.mtx_trylock 200) ] (Scenario.posix_start 8))
  = Some [thrd_success; thrd_success; thrd_busy; thrd_success; thrd_success] /\
  posix_holder 200 <$> final_state
    (calls [ as_thread 1 (Posix.mtx_init 200 mtx_plain);
             as_thread 1 (Posix.mtx_lock 200);
             as_thread 2 (Posix.mtx_trylock 200);
             as_thread 1 (Posix.mtx_unlock 200);
             as_thread 2 (Posix.mtx_trylock 200) ] (Scenario.posix_start 8))
  = Some (Some (Some (2, 1%nat))) /\
  calls [ as_thread 1 (Posix.mtx_init 200 mtx_plain);
          as_thread 1 (Posix.mtx_lock 200);
          as_thread 2 (Posix.mtx_lock 200) ] (Scenario.posix_start 8)
  = Blocks.
Proof.
  apply (posix_mutual_exclusion 1 2 200 mtx_plain (Scenario.posix_start 8)).
  - discriminate.
  - left. reflexivity.
Defined.

(** X11: [mtx_trylock] by the thread that already holds the mutex.  On
    the POSIX reference kernel it returns [thrd_busy] with EBUSY in
    [errno] for a plain mutex, which stays held once; for a recursive
    mutex it returns [thrd_success] and the mutex is held twice. *)
Theorem posix_trylock_by_holder (m : Z) (s : state PosixKernel.kernel) :
  result_code
    (calls [Posix.mtx_init m mtx_plain; Posix.mtx_lock m; Posix.mtx_trylock m] s)
  = Some [thrd_success; thrd_success; thrd_busy] /\
  (fun s' => (errno s', posix_holder m s')) <$> final_state
    (calls [Posix.mtx_init m mtx_plain; Posix.mtx_lock m; Posix.mtx_trylock m] s)
  = Some (PosixKernel.EBUSY, Some (Some (PosixKernel.self (world s), 1%nat))) /\
  result_code
    (calls [ Posix.mtx_init m (Z.lor mtx_plain mtx_recursive);
             Posix.mtx_lock m; Posix.mtx_trylock m ] s)
  = Some [thrd_success; thrd_success; thrd_success] /\
  (fun s' => (errno s', posix_holder m s')) <$> final_state
    (calls [ Posix.mtx_init m (Z.lor mtx_plain mtx_recursive);
             Posix.mtx_lock m; Posix.mtx_trylock m ] s)
  = Some (errno s, Some (Some (PosixKernel.self (world s), 2%nat))).
Proof.
  repeat split; kernel_run; reflexivity.
Qed.

(** * Threads on the reference kernels *)

Ltac lifecycle :=
  unfold bind, native, native_wait, query, set_errno, store, load, ret, meanwhile;
  cbn [Posix.pthread_create Posix.pthread_join PosixKernel.api
       Win32.CreateThread Win32.WaitForSingleObject Win32.CloseHandle
       Win32.GetLastError Win32.INFINITE Win32.WAIT_OBJECT_0 Win32.WAIT_FAILED
       Win32Kernel.api];
  unfold PosixKernel.create, Win32Kernel.create_thread, Win32Kernel.new_object.

Ltac lookups :=
  repeat (cbn -[lookup insert delete];
          first [ rewrite lookup_insert_eq | rewrite lookup_delete_eq
                | rewrite Z.eqb_refl ]);
  cbn -[lookup insert delete].

(** X12: [thrd_join] waits for the end of the thread.  On the POSIX
    reference kernel with room for one more thread, joining a thread just
    created does not return while the thread runs; once it has run to
    its end the join returns [thrd_success], and the thread is gone from
    the system. *)
Theorem posix_join_waits
    (thr res arg : Z) (func : Z -> Z) (s : state PosixKernel.kernel) :
  PosixKernel.free_slots (world s) <> O ->
  Lifecycle.posix_join_running thr func arg res s = Blocks /\
  result_code (Scenario.posix_create_join thr func arg res s) = Some thrd_success /\
  (fun s' => PosixKernel.threads (world s') !! PosixKernel.next_id (world s)) <$>
    final_state (Scenario.posix_create_join thr func arg res s)
  = Some None.
Proof.
  intros Hs.
  unfold Lifecycle.posix_join_running, Scenario.posix_create_join,
    Posix.thrd_create, Posix.thrd_join.
  lifecycle.
  destruct (PosixKernel.free_slots (world s)) as [|n]; [contradiction|].
  repeat split.
  - lookups. unfold PosixKernel.join. lookups. reflexivity.
  - lookups. unfold PosixKernel.finish. lookups. unfold PosixKernel.join.
    lookups. reflexivity.
  - lookups. unfold PosixKernel.finish. lookups. unfold PosixKernel.join.
    lookups. reflexivity.
Qed.

Lemma posix_join_waits_witness :
  Lifecycle.posix_join_running 50 (fun _ => 42) 0 100 (Scenario.posix_start 8)
  = Blocks /\
  result_code
    (Scenario.posix_create_join 50 (fun _ => 42) 0 100 (Scenario.posix_start 8))
  = Some thrd_success /\
  (fun s' => PosixKernel.threads (world s') !!
             PosixKernel.next_id (world (Scenario.posix_start 8))) <$>
    final_state
      (Scenario.posix_create_join 50 (fun _ => 42) 0 100 (Scenario.posix_start 8))
  = Some None.
Proof.
  apply (posix_join_waits 50 100 0 (fun _ => 42) (Scenario.posix_start 8)).
  vm_compute. discriminate.
Defined.

(** X13: on the Win32 reference kernel with room for one more object and
    a usable next handle, joining a thread just created does not return
    while the thread runs.  Once it has run to its end, [thrd_join]
    returns [thrd_success] and leaves the thread handle open, with the
    exit code still behind it; a [thrd_detach] after the join returns
    [thrd_success] and closes the handle. *)
Theorem win32_join_keeps_handle
    (thr res arg : Z) (func : Z -> Z) (s : state Win32Kernel.kernel) :
  Win32Kernel.free_slots (world s) <> O ->
  Win32Kernel.next_handle (world s) <> NULL ->
  Win32Kernel.next_handle (world s) <> Win32Kernel.current_thread ->
  Lifecycle.win32_join_running thr func arg res s = Blocks /\
  result_code (Scenario.win32_create_join thr func arg res s) = Some thrd_success /\
  (fun s' => Win32Kernel.objects (world s') !! Win32Kernel.next_handle (world s)) <$>
    final_state (Scenario.win32_create_join thr func arg res s)
  = Some (Some (Win32Kernel.ThreadObject (Win32Kernel.next_id (world s))
                  (Terminated (to_DWORD (func arg))))) /\
  result_code (Lifecycle.win32_join_detach thr func arg res s)
  = Some (thrd_success, thrd_success) /\
  (fun s' => Win32Kernel.objects (world s') !! Win32Kernel.next_handle (world s)) <$>
    final_state (Lifecycle.win32_join_detach thr func arg res s)
  = Some None.
Proof.
  intros Hs Hn Hc. apply Z.eqb_neq in Hn, Hc.
  unfold Lifecycle.win32_join_running, Scenario.win32_create_join,
    Lifecycle.win32_join_detach, Win32.thrd_create, Win32.thrd_join,
    Win32.thrd_detach, Win32.thrd_errno.
  lifecycle.
  destruct (Win32Kernel.free_slots (world s)) as [|n]; [contradiction|].
  repeat split; lookups; rewrite Hn; lookups.
  - unfold Win32Kernel.wait_for_single_object. lookups. rewrite Hc. lookups.
    reflexivity.
  - unfold Win32Kernel.finish. lookups.
    unfold Win32Kernel.wait_for_single_object. lookups. rewrite Hc. lookups.
    destruct (res !=? NULL); reflexivity.
  - unfold Win32Kernel.finish. lookups.
    unfold Win32Kernel.wait_for_single_object. lookups. rewrite Hc. lookups.
    destruct (res !=? NULL); lookups; reflexivity.
  - unfold Win32Kernel.finish. lookups.
    unfold Win32Kernel.wait_for_single_object. lookups. rewrite Hc. lookups.
    destruct (res !=? NULL); lookups; unfold Win32Kernel.close_handle;
      lookups; reflexivity.
  - unfold Win32Kernel.finish. lookups.
    unfold Win32Kernel.wait_for_single_object. lookups. rewrite Hc. lookups.
    destruct (res !=? NULL); lookups; unfold Win32Kernel.close_handle;
      lookups; reflexivity.
Qed.

Lemma win32_join_keeps_handle_witness :
  Lifecycle.win32_join_running 50 (fun _ => 42) 0 100 (Scenario.win32_start 8)
  = Blocks /\
  result_code
    (Scenario.win32_create_join 50 (fun _ => 42) 0 100 (Scenario.win32_start 8))
  = Some thrd_success /\
  (fun s' => Win32Kernel.objects (world s') !!
             Win32Kernel.next_handle (world (Scenario.win32_start 8))) <$>
    final_state
      (Scenario.win32_create_join 50 (fun _ => 42) 0 100 (Scenario.win32_start 8))
  = Some (Some (Win32Kernel.ThreadObject
                  (Win32Kernel.next_id (world (Scenario.win32_start 8)))
                  (Terminated (to_DWORD ((fun _ : Z => 42) 0))))) /\
  result_code
    (Lifecycle.win32_join_detach 50 (fun _ => 42) 0 100 (Scenario.win32_start 8))
  = Some (thrd_success, thrd_success) /\
  (fun s' => Win32Kernel.objects (world s') !!
             Win32Kernel.next_handle (world (Scenario.win32_start 8))) <$>
    final_state
      (Lifecycle.win32_join_detach 50 (fun _ => 42) 0 100 (Scenario.win32_start 8))
  = Some None.
Proof.
  apply (win32_join_keeps_handle 50 100 0 (fun _ => 42) (Scenario.win32_start 8));
    vm_compute; discriminate.
Defined.

(** * A mutex on the Win32 reference kernel

    The Win32 [mtx_init] creates no mutex, so the mutex is one created
    elsewhere: a free mutex object behind the handle in [*mutex]. *)

(** X14: on the Win32 reference kernel every mutex is re-entrant.  The
    holder can [mtx_lock] again and [mtx_trylock] succeeds for it; as
    many [mtx_unlock] as acquisitions free the mutex, and one
    [mtx_unlock] more returns [thrd_error] with ERROR_NOT_OWNER in
    [errno], the mutex staying free. *)
Theorem win32_mutex_reentrant
    (mutex h : Z) (s : state Win32Kernel.kernel) :
  heap s !! mutex = Some h ->
  h <> Win32Kernel.current_thread ->
  Win32Kernel.objects (world s) !! h = Some (Win32Kernel.MutexObject None) ->
  result_code
    (calls [ Win32.mtx_lock mutex; Win32.mtx_lock mutex; Win32.mtx_trylock mutex;
             Win32.mtx_unlock mutex; Win32.mtx_unlock mutex ] s)
  = Some [thrd_success; thrd_success; thrd_success; thrd_success; thrd_success] /\
  (fun s' => Win32Kernel.objects (world s') !! h) <$> final_state
    (calls [ Win32.mtx_lock mutex; Win32.mtx_lock mutex; Win32.mtx_trylock mutex;
             Win32.mtx_unlock mutex; Win32.mtx_unlock mutex ] s)
  = Some (Some (Win32Kernel.MutexObject
                  (Some (Win32Kernel.self (world s), 1%nat)))) /\
  result_code
    (calls [ Win32.mtx_lock mutex; Win32.mtx_unlock mutex; Win32.mtx_unlock mutex ] s)
  = Some [thrd_success; thrd_success; thrd_error] /\
  (fun s' => (errno s', Win32Kernel.objects (world s') !! h)) <$> final_state
    (calls [ Win32.mtx_lock mutex; Win32.mtx_unlock mutex; Win32.mtx_unlock mutex ] s)
  = Some (Win32Kernel.ERROR_NOT_OWNER, Some (Win32Kernel.MutexObject None)).
Proof.
  intros Hcell Hc Hobj. apply Z.eqb_neq in Hc.
  unfold Win32.mtx_lock, Win32.mtx_trylock, Win32.mtx_unlock, Win32.thrd_errno.
  cbn [calls].
  unfold bind, native, native_wait, query, set_errno, store, load, ret.
  cbn [Win32.WaitForSingleObject Win32.ReleaseMutex Win32.GetLastError
       Win32.INFINITE Win32.WAIT_OBJECT_0 Win32.WAIT_FAILED Win32.WAIT_TIMEOUT
       Win32Kernel.api].
  unfold Win32Kernel.wait_for_single_object, Win32Kernel.release_mutex.
  repeat split;
    repeat (cbn -[lookup insert delete];
            first [ rewrite Hcell | rewrite Hc | rewrite Hobj
                  | rewrite lookup_insert_eq | rewrite Z.eqb_refl ]);
    reflexivity.
Qed.

Lemma win32_mutex_reentrant_witness :
  result_code
    (calls [ Win32.mtx_lock 200; Win32.mtx_lock 200; Win32.mtx_trylock 200;
             Win32.mtx_unlock 200; Win32.mtx_unlock 200 ]
       (State 0 (<[200 := 4]> Scenario.memory)
          (snd (Win32Kernel.create_mutex false (Win32Kernel.boot 8)))))
  = Some [thrd_success; thrd_success; thrd_success; thrd_success; thrd_success] /\
  (fun s' => Win32Kernel.objects (world s') !! 4) <$> final_state
    (calls [ Win32.mtx_lock 200; Win32.mtx_lock 200; Win32.mtx_trylock 200;
             Win32.mtx_unlock 200; Win32.mtx_unlock 200 ]
       (State 0 (<[200 := 4]> Scenario.memory)
          (snd (Win32Kernel.create_mutex false (Win32Kernel.boot 8)))))
  = Some (Some (Win32Kernel.MutexObject
                  (Some (Win32Kernel.self
                           (world (State 0 (<[200 := 4]> Scenario.memory)
                              (snd (Win32Kernel.create_mutex false
                                      (Win32Kernel.boot 8))))), 1%nat)))) /\
  result_code
    (calls [ Win32.mtx_lock 200; Win32.mtx_unlock 200; Win32.mtx_unlock 200 ]
       (State 0 (<[200 := 4]> Scenario.memory)
          (snd (Win32Kernel.create_mutex false (Win32Kernel.boot 8)))))
  = Some [thrd_success; thrd_success; thrd_error] /\
  (fun s' => (errno s', Win32Kernel.objects (world s') !! 4)) <$> final_state
    (calls [ Win32.mtx_lock 200; Win32.mtx_unlock 200; Win32.mtx_unlock 200 ]
       (State 0 (<[200 := 4]> Scenario.memory)
          (snd (Win32Kernel.create_mutex false (Win32Kernel.boot 8)))))
  = Some (Win32Kernel.ERROR_NOT_OWNER, Some (Win32Kernel.MutexObject None)).
Proof.
  apply (win32_mutex_reentrant 200 4
           (State 0 (<[200 := 4]> Scenario.memory)
              (snd (Win32Kernel.create_mutex false (Win32Kernel.boot 8)))));
    vm_compute; first [reflexivity | discriminate].
Defined.
